(** * Request sessions in the Node client, and transaction sampling

    A shallow embedding of [packages/node/src/client.ts] (the [NodeClient]
    class) together with the collaborators it talks to, followed by the
    sampling decision taken when a transaction is started.

    Objects that the TypeScript code mutates through references (the request
    session stored on a scope) live in an explicit store; every method is a
    function from the store before the call to the store after it.  Calls that
    leave the client (the logger, the session flusher's methods) are appended
    to a log, oldest first, the way the jest spies of the test-suite record
    them. *)

From Stdlib Require Import QArith.
From stdpp Require Import gmap strings list.

Close Scope Q_scope.

(** ** Values of the host language *)

(** A JavaScript number: the two non-finite classes and the finite doubles,
    which are rationals and are only ever compared here. *)
Inductive number :=
| NaN
| Infinity (negative : bool)
| Finite (q : Q).

(** What an [any]-typed position can hold. *)
Inductive JSValue :=
| JUndefined
| JNull
| JBool (b : bool)
| JNum (n : number)
| JStr (s : string)
| JObject (fields : list (string * string)).

(** ** @sentry/types *)

(** Modelled from the spec: the [RequestSessionStatus] enumeration, whose
    declaration is imported from [@sentry/types]; the five statuses are the
    ones the data model lists. *)
Module RequestSessionStatus.
Inductive t := Ok | Errored | Crashed | Abnormal | Exited.

#[global] Instance eq_dec : EqDecision t.
Proof. solve_decision. Defined.
End RequestSessionStatus.

(** Modelled from the spec: a request session is a record with one field,
    its status. *)
Record RequestSession := { status : RequestSessionStatus.t }.

(** One entry of [event.exception.values]. *)
Record Exception := { exception_type : option string; exception_value : option string }.

Record EventException := { values : option (list Exception) }.

(** The fields of [Event] that the client reads. *)
Record Event := {
  message : option string;
  type : option string;
  exception : option EventException
}.

Record EventHint := { event_id : option string }.

(** ** The store *)

(** Address of a request-session object. *)
Definition loc := nat.

(** A reference to the outbound transport of a backend. *)
Inductive Transport := TransportRef (id : nat).

(** Calls that leave the client.  [flusher_increment] carries the arguments
    of the call site, [None] standing for an argument that was not passed. *)
Inductive Call :=
| logger_warn (msg : string)
| flusher_increment (status : option RequestSessionStatus.t) (timestamp : option Z)
| flusher_flush.

#[global] Instance Call_eq_dec : EqDecision Call.
Proof. solve_decision. Defined.

Record World := {
  heap : gmap loc RequestSession;
  calls : list Call
}.

Definition record_call (c : Call) (w : World) : World :=
  {| heap := heap w; calls := calls w ++ [c] |}.

(** [requestSession.status = s] for the object at [l]. *)
Definition set_status (l : loc) (s : RequestSessionStatus.t) (w : World) : World :=
  {| heap := <[l := {| status := s |}]> (heap w); calls := calls w |}.

(** The status of the request session at [l], when there is one. *)
Definition status_at (w : World) (l : loc) : option RequestSessionStatus.t :=
  status <$> heap w !! l.

(** ** @sentry/hub *)

(** Modelled from the spec: a scope holds an optional reference to the
    request session of the unit of work it belongs to; [getRequestSession]
    and [setRequestSession] read and write that reference (the class [Scope]
    is exported by [./scope], which is not part of the sources). *)
Record Scope := { _requestSession : option loc }.

Definition getRequestSession (scope : Scope) : option loc := _requestSession scope.

Definition setRequestSession (requestSession : option loc) (scope : Scope) : Scope :=
  {| _requestSession := requestSession |}.

(** [new Scope()]. *)
Definition Scope_new : Scope := {| _requestSession := None |}.

(** Modelled from the spec: the session flusher ([./sessionflusher] is not
    part of the sources).  It is bound to a transport and to a release and
    environment pair, is enabled until closed, and owns a periodic timer.
    The table of aggregated counts plays no part in what follows and is left
    out; invocations of [flush] and of the increment operation are logged. *)
Record SessionFlusher := {
  flusher_transport : Transport;
  flusher_release : string;
  flusher_environment : option string;
  _isEnabled : bool;
  _intervalRunning : bool
}.

(** Modelled from the spec: [new SessionFlusher(transport, { release,
    environment })] starts enabled, with its timer running. *)
Definition SessionFlusher_new (transport : Transport) (release : string)
    (environment : option string) : SessionFlusher :=
  {| flusher_transport := transport;
     flusher_release := release;
     flusher_environment := environment;
     _isEnabled := true;
     _intervalRunning := true |}.

(** Modelled from the spec: [flush()] drains the table to the transport. *)
Definition SessionFlusher_flush (f : SessionFlusher) (w : World) : SessionFlusher * World :=
  (f, record_call flusher_flush w).

(** Modelled from the spec: [close()] disables the flusher, cancels the
    periodic timer and performs one final synchronous [flush()]; calling it
    again on a flusher that is already closed does not flush a second time. *)
Definition SessionFlusher_close (f : SessionFlusher) (w : World) : SessionFlusher * World :=
  let f1 :=
    {| flusher_transport := flusher_transport f;
       flusher_release := flusher_release f;
       flusher_environment := flusher_environment f;
       _isEnabled := false;
       _intervalRunning := false |} in
  if _isEnabled f then SessionFlusher_flush f1 w else (f1, w).

(** Modelled from the spec: the periodic execution; when the interval
    elapses the timer, unless it was cancelled, invokes [flush()]. *)
Definition SessionFlusher_tick (f : SessionFlusher) (w : World) : SessionFlusher * World :=
  if _intervalRunning f then SessionFlusher_flush f w else (f, w).

(** Modelled from the spec: the warning logged when an increment reaches a
    closed flusher; the spec asks for the warning and leaves its wording
    open. *)
Definition closed_flusher_warning : string :=
  "incrementSessionStatusCount was called on a closed SessionFlusher and is ignored".

(** Modelled from the spec: [incrementSessionStatusCount(status, timestamp)];
    once the flusher is closed, calls are ignored and warned. *)
Definition SessionFlusher_incrementSessionStatusCount
    (status : option RequestSessionStatus.t) (timestamp : option Z)
    (f : SessionFlusher) (w : World) : SessionFlusher * World :=
  let w1 := record_call (flusher_increment status timestamp) w in
  if _isEnabled f then (f, w1) else (f, record_call (logger_warn closed_flusher_warning) w1).

(** ** packages/node/src/client.ts *)

Record SdkInfo := {
  sdk_name : string;
  sdk_packages : list (string * string);
  sdk_version : string
}.

Record SdkMetadata := { sdk : option SdkInfo }.

Record NodeOptions := {
  dsn : option string;
  autoSessionTracking : option bool;
  release : option string;
  environment : option string;
  _metadata : option SdkMetadata
}.

Record NodeBackend := { getTransport : Transport }.

Record NodeClient := {
  _options : NodeOptions;
  _backend : NodeBackend;
  _sessionFlusher : option SessionFlusher
}.

(** The methods of [BaseClient] that [NodeClient] overrides and calls through
    [super].  The base class reads the client and acts on the store.  Closing
    may also rewrite the fields the client inherits from it, [_options] and
    [_backend], and returns them; the field [_sessionFlusher], which
    [NodeClient] declares, is out of its reach.  What a client was built
    with to identify its sessions, the release, the environment and the
    transport, is assumed to stay. *)
Class BaseClient := {
  super_captureException :
    JSValue -> option EventHint -> option Scope -> NodeClient -> World -> option string * World;
  super_captureEvent :
    Event -> option EventHint -> option Scope -> NodeClient -> World -> option string * World;
  super_close : option Z -> NodeClient -> World -> bool * NodeOptions * NodeBackend * World;
  super_close_release : forall t c w,
    release (super_close t c w).1.1.2 = release (_options c);
  super_close_environment : forall t c w,
    environment (super_close t c w).1.1.2 = environment (_options c);
  super_close_transport : forall t c w,
    getTransport (super_close t c w).1.2 = getTransport (_backend c)
}.

(** The number of [flush] calls in a log. *)
Definition count_flush (cs : list Call) : nat :=
  length (filter (fun c => c = flusher_flush) cs).

(** What the request-session logic relies on from the base class: capturing
    does not touch request sessions, and closing the client does not call the
    session flusher, to which the base class holds no reference. *)
Class BaseFrame (B : BaseClient) : Prop := {
  super_captureException_heap : forall e h s c w,
    heap (super_captureException e h s c w).2 = heap w;
  super_captureEvent_heap : forall e h s c w,
    heap (super_captureEvent e h s c w).2 = heap w;
  super_close_flush : forall t c w,
    count_flush (calls (super_close t c w).2) = count_flush (calls w)
}.

(** JavaScript truthiness of an optional boolean and of an optional string. *)
Definition truthy_bool (b : option bool) : bool := default false b.

Definition truthy_string (s : option string) : bool :=
  match s with
  | Some s => negb (bool_decide (s = ""))
  | None => false
  end.

Module NodeClient.

(** [new NodeClient(options)]: the constructor defaults
    [options._metadata.sdk] and hands the options to the base class; no
    session flusher exists yet.  [SDK_VERSION] is imported from
    [@sentry/core]. *)
Definition new (SDK_VERSION : string) (backend : NodeBackend) (options : NodeOptions)
    : NodeClient :=
  let _metadata := default {| sdk := None |} (_metadata options) in
  let sdk :=
    default {| sdk_name := "sentry.javascript.node";
               sdk_packages := [("npm:@sentry/node", SDK_VERSION)];
               sdk_version := SDK_VERSION |} (sdk _metadata) in
  {| _options :=
       {| dsn := dsn options;
          autoSessionTracking := autoSessionTracking options;
          release := release options;
          environment := environment options;
          _metadata := Some {| sdk := Some sdk |} |};
     _backend := backend;
     _sessionFlusher := None |}.

Section Methods.
Context {B : BaseClient}.

Definition captureException (exception : JSValue) (hint : option EventHint)
    (scope : option Scope) (this : NodeClient) (w : World) : option string * World :=
  let w1 :=
    match truthy_bool (autoSessionTracking (_options this)), _sessionFlusher this, scope with
    | true, Some _, Some scope =>
        let requestSession := getRequestSession scope in
        match requestSession with
        | Some l =>
            if bool_decide (status_at w l = Some RequestSessionStatus.Ok)
            then set_status l RequestSessionStatus.Errored w
            else w
        | None => w
        end
    | _, _, _ => w
    end in
  super_captureException exception hint scope this w1.

(** [event.type || 'exception'] *)
Definition eventType (event : Event) : string :=
  match type event with
  | Some t => if bool_decide (t = "") then "exception" else t
  | None => "exception"
  end.

(** [eventType === 'exception' && event.exception && event.exception.values
    && event.exception.values.length > 0], as a truth value. *)
Definition isException (event : Event) : bool :=
  bool_decide (eventType event = "exception")
  && match exception event with
     | Some e =>
         match values e with
         | Some vs => bool_decide (0 < length vs)
         | None => false
         end
     | None => false
     end.

Definition captureEvent (event : Event) (hint : option EventHint)
    (scope : option Scope) (this : NodeClient) (w : World) : option string * World :=
  let w1 :=
    match truthy_bool (autoSessionTracking (_options this)), _sessionFlusher this, scope with
    | true, Some _, Some scope =>
        if isException event then
          let requestSession := getRequestSession scope in
          match requestSession with
          | Some l =>
              if bool_decide (status_at w l = Some RequestSessionStatus.Ok)
              then set_status l RequestSessionStatus.Errored w
              else w
          | None => w
          end
        else w
    | _, _, _ => w
    end in
  super_captureEvent event hint scope this w1.

(** [this._sessionFlusher?.close(); return super.close(timeout)] *)
Definition close (timeout : option Z) (this : NodeClient) (w : World)
    : bool * NodeClient * World :=
  let '(this1, w1) :=
    match _sessionFlusher this with
    | Some f =>
        let '(f1, w1) := SessionFlusher_close f w in
        ({| _options := _options this; _backend := _backend this;
            _sessionFlusher := Some f1 |}, w1)
    | None => (this, w)
    end in
  let '(r, options2, backend2, w2) := super_close timeout this1 w1 in
  (r, {| _options := options2; _backend := backend2;
         _sessionFlusher := _sessionFlusher this1 |}, w2).

Definition initSessionFlusher (this : NodeClient) (w : World) : NodeClient * World :=
  let release := release (_options this) in
  let environment := environment (_options this) in
  match release with
  | Some r =>
      if bool_decide (r = "")
      then (this, record_call
              (logger_warn "Cannot initialise an instance of SessionFlusher if no release is provided!") w)
      else ({| _options := _options this; _backend := _backend this;
               _sessionFlusher :=
                 Some (SessionFlusher_new (getTransport (_backend this)) r environment) |}, w)
  | None =>
      (this, record_call
         (logger_warn "Cannot initialise an instance of SessionFlusher if no release is provided!") w)
  end.

Definition _captureRequestSession (this : NodeClient) (w : World) : NodeClient * World :=
  match _sessionFlusher this with
  | None =>
      (this, record_call
         (logger_warn "Discarded request mode session because autoSessionTracking option was disabled") w)
  | Some f =>
      let '(f1, w1) := SessionFlusher_incrementSessionStatusCount None None f w in
      ({| _options := _options this; _backend := _backend this;
          _sessionFlusher := Some f1 |}, w1)
  end.

End Methods.
End NodeClient.

(** A base class that assigns an event id, delivers nothing and resolves
    [close] to [true]; it serves to run the client on concrete inputs. *)
Definition plain_base : BaseClient :=
  {| super_captureException := fun _ hint _ _ w =>
       (Some (default "0123456789abcdef" (hint ≫= event_id)), w);
     super_captureEvent := fun _ hint _ _ w =>
       (Some (default "0123456789abcdef" (hint ≫= event_id)), w);
     super_close := fun _ this w => (true, _options this, _backend this, w);
     super_close_release := fun _ _ _ => eq_refl;
     super_close_environment := fun _ _ _ => eq_refl;
     super_close_transport := fun _ _ _ => eq_refl |}.

(** *** Sequences of calls on one client *)

(** The capture calls of the public interface. *)
Inductive Capture :=
| CaptureException (exception : JSValue) (hint : option EventHint) (scope : option Scope)
| CaptureEvent (event : Event) (hint : option EventHint) (scope : option Scope).

Definition capture {B : BaseClient} (c : Capture) (this : NodeClient) (w : World) : World :=
  match c with
  | CaptureException e h s => (NodeClient.captureException e h s this w).2
  | CaptureEvent e h s => (NodeClient.captureEvent e h s this w).2
  end.

Definition captures {B : BaseClient} (cs : list Capture) (this : NodeClient) (w : World) : World :=
  foldl (fun w c => capture c this w) w cs.

(** Every method of the client. *)
Inductive Op :=
| OpCapture (c : Capture)
| OpClose (timeout : option Z)
| OpInitSessionFlusher
| OpCaptureRequestSession.

Definition step {B : BaseClient} (o : Op) (st : NodeClient * World) : NodeClient * World :=
  match o with
  | OpCapture c => (st.1, capture c st.1 st.2)
  | OpClose t => let '(_, this, w) := NodeClient.close t st.1 st.2 in (this, w)
  | OpInitSessionFlusher => NodeClient.initSessionFlusher st.1 st.2
  | OpCaptureRequestSession => NodeClient._captureRequestSession st.1 st.2
  end.

Definition run {B : BaseClient} (os : list Op) (st : NodeClient * World) : NodeClient * World :=
  foldl (fun st o => step o st) st os.

(** ** Transaction sampling *)

Module TransactionSamplingMethod.
Inductive t := Explicit | Sampler | Rate | Inheritance.
End TransactionSamplingMethod.

Module Tracing.

(** Modelled from the spec: the transaction context, the sampling context
    handed to a custom sampler, and the sampling configuration of the client
    options ([hubextensions] and [transaction] are not part of the sources,
    only their test-suite is). *)
Record TransactionContext := {
  name : string;
  parentSpanId : option string;
  parentSampled : option bool;
  sampled : option bool
}.

Record SamplingContext := {
  transactionContext : TransactionContext;
  sampling_parentSampled : option bool;
  customSamplingContext : list (string * JSValue)
}.

Record SamplingConfig := {
  tracesSampleRate : option JSValue;
  tracesSampler : option (SamplingContext -> JSValue)
}.

(** The outcome: the decision and the metadata stored with it. *)
Record Decision := {
  decision_sampled : bool;
  decision_method : option TransactionSamplingMethod.t;
  decision_rate : option Q
}.

(** The two ways a rate is rejected, with the text of the warnings the
    test-suite expects. *)
Inductive Rejection := NotBooleanOrNumber | OutOfBounds.

Definition warning (r : Rejection) : string :=
  match r with
  | NotBooleanOrNumber => "Sample rate must be a boolean or a number"
  | OutOfBounds => "Sample rate must be between 0 and 1"
  end.

(** Modelled from the spec: the validation rule shared by the sampler and
    the static rate; [inl] is the accepted rate as a number, a boolean being
    1 or 0. *)
Definition isValidSampleRate (rate : JSValue) : Q + Rejection :=
  match rate with
  | JBool b => inl (if b then 1%Q else 0%Q)
  | JNum NaN => inr NotBooleanOrNumber
  | JNum (Infinity _) => inr OutOfBounds
  | JNum (Finite q) =>
      if Qle_bool 0 q && Qle_bool q 1 then inl q else inr OutOfBounds
  | _ => inr NotBooleanOrNumber
  end.

(** [random() < rate], a rate of exactly 0 or 1 deciding without the draw. *)
Definition draw (random rate : Q) : bool :=
  if Qeq_bool rate 0 then false
  else if Qeq_bool rate 1 then true
  else negb (Qle_bool rate random).

Definition byRate (method : TransactionSamplingMethod.t) (rate : JSValue) (random : Q)
    : Decision * list string :=
  match isValidSampleRate rate with
  | inl q =>
      ({| decision_sampled := draw random q;
          decision_method := Some method;
          decision_rate := Some q |}, [])
  | inr r =>
      ({| decision_sampled := false; decision_method := None; decision_rate := None |},
       [warning r])
  end.

(** Modelled from the spec: [decideSampling], the numbered steps of the
    sampler's contract in their order.  [random] is the value the random
    source returns for this call. *)
Definition decideSampling (ctx : TransactionContext) (cfg : SamplingConfig)
    (custom : list (string * JSValue)) (random : Q) : Decision * list string :=
  match sampled ctx with
  | Some b =>
      ({| decision_sampled := b;
          decision_method := Some TransactionSamplingMethod.Explicit;
          decision_rate := None |}, [])
  | None =>
      match tracesSampler cfg, tracesSampleRate cfg with
      | None, None =>
          ({| decision_sampled := false; decision_method := None; decision_rate := None |}, [])
      | Some sampler, _ =>
          byRate TransactionSamplingMethod.Sampler
            (sampler {| transactionContext := ctx;
                        sampling_parentSampled := parentSampled ctx;
                        customSamplingContext := custom |})
            random
      | None, Some rate =>
          match parentSampled ctx with
          | Some b =>
              ({| decision_sampled := b;
                  decision_method := Some TransactionSamplingMethod.Inheritance;
                  decision_rate := None |}, [])
          | None => byRate TransactionSamplingMethod.Rate rate random
          end
      end
  end.

(** The transaction a hub hands back. *)
Record Transaction := {
  transaction_name : string;
  transaction_sampled : bool;
  transactionSampling : option (TransactionSamplingMethod.t * option Q)
}.

(** Modelled from the spec: [startTransaction(context, customSamplingContext)]
    applies the sampler once and returns the transaction together with the
    warnings logged on the way. *)
Definition startTransaction (cfg : SamplingConfig) (ctx : TransactionContext)
    (custom : list (string * JSValue)) (random : Q) : Transaction * list string :=
  let '(d, warnings) := decideSampling ctx cfg custom random in
  ({| transaction_name := name ctx;
      transaction_sampled := decision_sampled d;
      transactionSampling :=
        match decision_method d with
        | Some m => Some (m, decision_rate d)
        | None => None
        end |}, warnings).

(** The value that is read as the effective rate of a call, if any: the
    sampler's return value when a sampler is configured, the static rate when
    it is reached. *)
Definition consulted (ctx : TransactionContext) (cfg : SamplingConfig)
    (custom : list (string * JSValue)) : option JSValue :=
  match sampled ctx with
  | Some _ => None
  | None =>
      match tracesSampler cfg with
      | Some sampler =>
          Some (sampler {| transactionContext := ctx;
                           sampling_parentSampled := parentSampled ctx;
                           customSamplingContext := custom |})
      | None =>
          match parentSampled ctx with
          | Some _ => None
          | None => tracesSampleRate cfg
          end
      end
  end.

(** A value that is neither a boolean nor a number, or is [NaN]. *)
Definition wrong_type (v : JSValue) : Prop :=
  (forall b, v <> JBool b) /\ (forall n, v = JNum n -> n = NaN).

(** A number, not [NaN], that lies outside the interval from 0 to 1. *)
Definition out_of_bounds (v : JSValue) : Prop :=
  (exists negative, v = JNum (Infinity negative))
  \/ (exists q, v = JNum (Finite q) /\ (q < 0 \/ 1 < q)%Q).

End Tracing.

(** [hub.startTransaction({ name: 'dogpark' })] and its variants. *)
Definition dogpark (parentSampled sampled : option bool) : Tracing.TransactionContext :=
  {| Tracing.name := "dogpark";
     Tracing.parentSpanId := None;
     Tracing.parentSampled := parentSampled;
     Tracing.sampled := sampled |}.

(** [new BrowserClient({})]: tracing is not configured. *)
Definition tracing_disabled : Tracing.SamplingConfig :=
  {| Tracing.tracesSampleRate := None; Tracing.tracesSampler := None |}.

(** [new BrowserClient({ tracesSampleRate: rate })] *)
Definition with_rate (rate : JSValue) : Tracing.SamplingConfig :=
  {| Tracing.tracesSampleRate := Some rate; Tracing.tracesSampler := None |}.

(** [new BrowserClient({ tracesSampler: jest.fn().mockReturnValue(v) })] *)
Definition with_sampler (v : JSValue) : Tracing.SamplingConfig :=
  {| Tracing.tracesSampleRate := None; Tracing.tracesSampler := Some (fun _ => v) |}.

(** ** Vocabulary of the statements *)

(** Session tracking is on for the client and a flusher has been set up. *)
Definition tracking (this : NodeClient) : Prop :=
  autoSessionTracking (_options this) = Some true /\ is_Some (_sessionFlusher this).

(** The scope argument is present and carries the request session at [l]. *)
Definition carries (scope : option Scope) (l : loc) : Prop :=
  exists sc, scope = Some sc /\ getRequestSession sc = Some l.

(** The event counts as an exception: its type, defaulted, is ['exception']
    and its list of exception values has an element. *)
Definition exception_with_values (event : Event) : Prop :=
  NodeClient.eventType event = "exception"
  /\ exists e vs, exception event = Some e /\ values e = Some vs /\ vs <> [].

(** The same, read off the fields of the event alone: the type is
    ['exception'], absent or empty, and the exception values are a non-empty
    list. *)
Definition exception_typed_with_values (event : Event) : Prop :=
  (type event = None \/ type event = Some "" \/ type event = Some "exception")
  /\ exists e v vs, exception event = Some e /\ values e = Some (v :: vs).

(** The world a capture call hands to the base class: the session referenced
    by the scope is marked errored when it was [Ok], and nothing else moves. *)
Definition marked (scope : option Scope) (w : World) : World :=
  match scope ≫= getRequestSession with
  | Some l =>
      if bool_decide (status_at w l = Some RequestSessionStatus.Ok)
      then set_status l RequestSessionStatus.Errored w
      else w
  | None => w
  end.

(** ** Inputs taken from the test-suite *)

(** [{ dsn: PUBLIC_DSN, autoSessionTracking: true, release: '1.4' }] *)
Definition options_tracking : NodeOptions :=
  {| dsn := Some "https://username@domain/123";
     autoSessionTracking := Some true;
     release := Some "1.4";
     environment := None;
     _metadata := None |}.

(** The same options without a release. *)
Definition options_no_release : NodeOptions :=
  {| dsn := Some "https://username@domain/123";
     autoSessionTracking := Some true;
     release := None;
     environment := None;
     _metadata := None |}.

Definition backend0 : NodeBackend := {| getTransport := TransportRef 0 |}.

Definition empty_world : World := {| heap := ∅; calls := [] |}.

(** [new NodeClient(options)], for some version of the SDK. *)
Definition client_fresh : NodeClient := NodeClient.new "6.13.3" backend0 options_tracking.

(** [new NodeClient(options)] followed by [client.initSessionFlusher()]. *)
Definition client_tracking : NodeClient :=
  (NodeClient.initSessionFlusher client_fresh empty_world).1.

(** The same client with [autoSessionTracking: false]. *)
Definition client_not_tracking : NodeClient :=
  (NodeClient.initSessionFlusher
     (NodeClient.new "6.13.3" backend0
        {| dsn := Some "https://username@domain/123";
           autoSessionTracking := Some false;
           release := Some "1.4";
           environment := None;
           _metadata := None |})
     empty_world).1.

(** [client_tracking] after [clearInterval(client._sessionFlusher._intervalId)]. *)
Definition client_timer_cleared : NodeClient :=
  {| _options := _options client_fresh;
     _backend := backend0;
     _sessionFlusher :=
       Some {| flusher_transport := TransportRef 0;
               flusher_release := "1.4";
               flusher_environment := None;
               _isEnabled := true;
               _intervalRunning := false |} |}.

(** [scope.setRequestSession({ status })] on a fresh scope, the session
    object being allocated at address 0. *)
Definition scope0 : Scope := setRequestSession (Some 0) Scope_new.

Definition world_with (s : RequestSessionStatus.t) : World :=
  {| heap := {[ 0 := {| status := s |} ]}; calls := [] |}.

(** [{ message: 'message', exception: { values: [{ type: 'exception type 1' }] } }] *)
Definition event_exception : Event :=
  {| message := Some "message";
     type := None;
     exception :=
       Some {| values :=
                 Some [ {| exception_type := Some "exception type 1";
                           exception_value := None |} ] |} |}.

(** [{ message: 'message', type: 'exception', exception: { values: [...] } }] *)
Definition event_typed_exception : Event :=
  {| message := Some "message";
     type := Some "exception";
     exception :=
       Some {| values :=
                 Some [ {| exception_type := Some "exception type 1";
                           exception_value := None |} ] |} |}.

(** [{ message: 'message' }] *)
Definition event_message : Event :=
  {| message := Some "message"; type := None; exception := None |}.

(** [{ message: 'message', type: 'transaction' }] *)
Definition event_transaction : Event :=
  {| message := Some "message"; type := Some "transaction"; exception := None |}.

(** ** The rest of the client *)

(** An event together with the two fields that [_prepareEvent] writes. *)
Record NodeEvent := {
  node_event : Event;
  platform : option string;
  server_name : option string
}.

(** [super._prepareEvent], the base class's preparation of an event; it
    resolves to the prepared event or to [null]. *)
Class BasePrepare := {
  super_prepareEvent :
    NodeEvent -> option Scope -> option EventHint -> NodeClient -> World
    -> option NodeEvent * World
}.

(** [_prepareEvent(event, scope, hint)]; [serverName] is
    [this.getOptions().serverName].  The event is updated in place and then
    handed to the base class. *)
Definition _prepareEvent {P : BasePrepare} (serverName : option string)
    (event : NodeEvent) (scope : option Scope) (hint : option EventHint)
    (this : NodeClient) (w : World) : option NodeEvent * World :=
  let event1 :=
    {| node_event := node_event event;
       platform :=
         Some match platform event with
              | Some p => if bool_decide (p = "") then "node" else p
              | None => "node"
              end;
       server_name := server_name event |} in
  let event2 :=
    if truthy_string serverName
    then {| node_event := node_event event1;
            platform := platform event1;
            server_name := serverName |}
    else event1 in
  super_prepareEvent event2 scope hint this w.

(** A base class whose preparation returns the event it is given. *)
Definition plain_prepare : BasePrepare :=
  {| super_prepareEvent := fun event _ _ _ w => (Some event, w) |}.

(** The scope argument of a capture call. *)
Definition capture_scope (c : Capture) : option Scope :=
  match c with
  | CaptureException _ _ scope => scope
  | CaptureEvent _ _ scope => scope
  end.

(** The capture call is one that marks the request session at [l] of a
    tracking client: an exception captured on a scope that carries [l], or
    an event counting as an exception captured on such a scope. *)
Definition triggers (c : Capture) (l : loc) : Prop :=
  match c with
  | CaptureException _ _ scope => carries scope l
  | CaptureEvent event _ scope => carries scope l /\ exception_with_values event
  end.

(** * Properties of the Node client *)

Lemma status_at_set_status_eq w l s :
  status_at (set_status l s w) l = Some s.
Proof. unfold status_at, set_status; simpl. by rewrite lookup_insert_eq. Qed.

Lemma heap_set_status_ne w l l' s :
  l <> l' -> heap (set_status l s w) !! l' = heap w !! l'.
Proof. intros Hne. unfold set_status; simpl. by rewrite lookup_insert_ne. Qed.

Lemma isException_spec event :
  NodeClient.isException event = true <-> exception_with_values event.
Proof.
  unfold NodeClient.isException, exception_with_values.
  rewrite andb_true_iff, bool_decide_eq_true.
  split.
  - intros [Ht Hv]. split; [done|].
    destruct (exception event) as [e|]; [|done].
    destruct (values e) as [vs|] eqn:Hvs; [|done].
    apply bool_decide_eq_true in Hv.
    exists e, vs. repeat split; try done.
    intros ->. simpl in Hv. lia.
  - intros [Ht (e & vs & -> & -> & Hne)]. split; [done|].
    apply bool_decide_eq_true. destruct vs; [done|simpl; lia].
Qed.

Lemma marked_calls scope w : calls (marked scope w) = calls w.
Proof.
  unfold marked. destruct (scope ≫= getRequestSession); [|done].
  by case_bool_decide.
Qed.

Lemma marked_heap scope w l :
  heap (marked scope w) !! l = heap w !! l
  \/ (carries scope l
      /\ status_at w l = Some RequestSessionStatus.Ok
      /\ status_at (marked scope w) l = Some RequestSessionStatus.Errored).
Proof.
  unfold marked.
  destruct scope as [sc|]; simpl; [|by left].
  destruct (getRequestSession sc) as [l0|] eqn:Hsc; [|by left].
  case_bool_decide as Hok; [|by left].
  destruct (decide (l0 = l)) as [->|Hne].
  - right. split; [by exists sc|]. split; [done|]. apply status_at_set_status_eq.
  - left. by rewrite heap_set_status_ne.
Qed.

Lemma marked_status scope w l :
  status_at (marked scope w) l = status_at w l
  \/ (status_at w l = Some RequestSessionStatus.Ok
      /\ status_at (marked scope w) l = Some RequestSessionStatus.Errored).
Proof.
  destruct (marked_heap scope w l) as [Heq|(_ & Hok & Herr)]; [left|by right].
  unfold status_at. by rewrite Heq.
Qed.

Lemma marked_carried scope w l :
  carries scope l -> status_at w l = Some RequestSessionStatus.Ok ->
  marked scope w = set_status l RequestSessionStatus.Errored w.
Proof.
  intros (sc & -> & Hsc) Hok. unfold marked; simpl. rewrite Hsc.
  by rewrite bool_decide_eq_true_2.
Qed.

Lemma marked_unchanged scope w :
  (forall l, carries scope l -> status_at w l <> Some RequestSessionStatus.Ok) ->
  marked scope w = w.
Proof.
  intros Hno. unfold marked.
  destruct scope as [sc|]; simpl; [|done].
  destruct (getRequestSession sc) as [l|] eqn:Hsc; [|done].
  rewrite bool_decide_eq_false_2; [done|].
  apply Hno. by exists sc.
Qed.

Lemma tracking_dec this :
  tracking this
  \/ (truthy_bool (autoSessionTracking (_options this)) = false \/ _sessionFlusher this = None).
Proof.
  unfold tracking.
  destruct (autoSessionTracking (_options this)) as [[]|]; simpl;
    destruct (_sessionFlusher this); eauto.
Qed.

Lemma captureException_unfold {B : BaseClient} exception hint scope this w :
  NodeClient.captureException exception hint scope this w =
  super_captureException exception hint scope this
    (if truthy_bool (autoSessionTracking (_options this))
        && bool_decide (is_Some (_sessionFlusher this))
     then marked scope w else w).
Proof.
  unfold NodeClient.captureException, marked.
  destruct (autoSessionTracking (_options this)) as [[]|]; simpl; try done;
    destruct (_sessionFlusher this) as [f|]; simpl; try done;
    destruct scope as [sc|]; simpl; try done.
Qed.

Lemma captureEvent_unfold {B : BaseClient} event hint scope this w :
  NodeClient.captureEvent event hint scope this w =
  super_captureEvent event hint scope this
    (if truthy_bool (autoSessionTracking (_options this))
        && bool_decide (is_Some (_sessionFlusher this))
        && NodeClient.isException event
     then marked scope w else w).
Proof.
  unfold NodeClient.captureEvent, marked.
  destruct (autoSessionTracking (_options this)) as [[]|]; simpl; try done;
    destruct (_sessionFlusher this) as [f|]; simpl; try done;
    destruct scope as [sc|]; simpl; try done;
    destruct (NodeClient.isException event); done.
Qed.

Lemma tracking_true this :
  tracking this ->
  truthy_bool (autoSessionTracking (_options this))
  && bool_decide (is_Some (_sessionFlusher this)) = true.
Proof.
  intros [-> Hf]. simpl. by apply bool_decide_eq_true.
Qed.

Lemma tracking_false this :
  ~ tracking this ->
  truthy_bool (autoSessionTracking (_options this))
  && bool_decide (is_Some (_sessionFlusher this)) = false.
Proof.
  intros Hn. apply not_true_is_false. intros Ht.
  apply andb_true_iff in Ht as [Ha Hf]. apply bool_decide_eq_true in Hf.
  apply Hn. split; [|done].
  destruct (autoSessionTracking (_options this)) as [[]|]; done.
Qed.

(** C1. [captureException] hands to the base capture path a world in which
    the request session is marked [Errored] exactly when session tracking is
    on, a flusher has been set up, the scope argument is present, carries a
    request session, and that session is [Ok]; in every other case every
    request session is as it was.  Nothing is logged on the way, and a base
    class that leaves request sessions alone returns the world it was
    handed. *)
Theorem captureException_marks_errored {B : BaseClient}
    (exception : JSValue) (hint : option EventHint) (scope : option Scope)
    (this : NodeClient) (w : World) :
  exists w1,
    NodeClient.captureException exception hint scope this w
      = super_captureException exception hint scope this w1
    /\ calls w1 = calls w
    /\ (forall l, tracking this /\ carries scope l
                  /\ status_at w l = Some RequestSessionStatus.Ok ->
          status_at w1 l = Some RequestSessionStatus.Errored)
    /\ (forall l, ~ (tracking this /\ carries scope l
                     /\ status_at w l = Some RequestSessionStatus.Ok) ->
          heap w1 !! l = heap w !! l)
    /\ (BaseFrame B ->
          heap (NodeClient.captureException exception hint scope this w).2 = heap w1).
Proof.
  rewrite captureException_unfold.
  destruct (tracking_dec this) as [Ht|Hn].
  - rewrite (tracking_true _ Ht). exists (marked scope w).
    split; [done|]. split; [apply marked_calls|]. split; [|split].
    + intros l (_ & Hc & Hok). rewrite (marked_carried _ _ _ Hc Hok).
      apply status_at_set_status_eq.
    + intros l Hno.
      destruct (marked_heap scope w l) as [Heq|(Hc & Hok & _)]; [done|].
      exfalso. by apply Hno.
    + intros F. apply super_captureException_heap.
  - assert (Hf : ~ tracking this).
    { intros [Ha [f Hf]]. destruct Hn as [Hn|Hn]; [by rewrite Ha in Hn|congruence]. }
    rewrite (tracking_false _ Hf). exists w.
    split; [done|]. split; [done|]. split; [|split].
    + intros l (Ht & _). done.
    + done.
    + intros F. apply super_captureException_heap.
Qed.

Lemma capture_heap {B : BaseClient} {F : BaseFrame B} c this w :
  heap (capture c this w) = heap w \/ exists scope, heap (capture c this w) = heap (marked scope w).
Proof.
  destruct c as [e h s|e h s]; simpl.
  - rewrite captureException_unfold, super_captureException_heap.
    destruct (_ && _); [right; by exists s|by left].
  - rewrite captureEvent_unfold, super_captureEvent_heap.
    destruct (_ && _); [right; by exists s|by left].
Qed.

Lemma capture_status {B : BaseClient} {F : BaseFrame B} c this w l :
  status_at (capture c this w) l = status_at w l
  \/ (status_at w l = Some RequestSessionStatus.Ok
      /\ status_at (capture c this w) l = Some RequestSessionStatus.Errored).
Proof.
  destruct (capture_heap c this w) as [Heq|[scope Heq]].
  - left. unfold status_at. by rewrite Heq.
  - assert (Hst : status_at (capture c this w) l = status_at (marked scope w) l).
    { unfold status_at. by rewrite Heq. }
    rewrite Hst. apply marked_status.
Qed.

Lemma captures_snoc {B : BaseClient} cs c this w :
  captures (cs ++ [c]) this w = capture c this (captures cs this w).
Proof. unfold captures. by rewrite foldl_app. Qed.

Lemma captures_keep_status {B : BaseClient} {F : BaseFrame B} cs this w l s :
  status_at w l = Some s -> s <> RequestSessionStatus.Ok ->
  status_at (captures cs this w) l = Some s.
Proof.
  intros Hs Hne. induction cs as [|c cs IH] using rev_ind; [done|].
  rewrite captures_snoc.
  destruct (capture_status c this (captures cs this w) l) as [Heq|[Hok _]].
  - by rewrite Heq.
  - rewrite IH in Hok. congruence.
Qed.

(** C2. Under a base class that leaves request sessions alone, a request
    session whose status is not [Ok] keeps that status after each call of any
    sequence of [captureException] and [captureEvent] calls, whatever their
    arguments; and a single capture call either leaves the status of a
    session as it was or takes it from [Ok] to [Errored]. *)
Theorem capture_never_changes_non_ok {B : BaseClient} (F : BaseFrame B)
    (cs : list Capture) (this : NodeClient) (w : World)
    (l : loc) (s : RequestSessionStatus.t) :
  status_at w l = Some s ->
  s <> RequestSessionStatus.Ok ->
  (forall k, status_at (captures (take k cs) this w) l = Some s)
  /\ (forall c w0 l0,
        status_at (capture c this w0) l0 = status_at w0 l0
        \/ (status_at w0 l0 = Some RequestSessionStatus.Ok
            /\ status_at (capture c this w0) l0 = Some RequestSessionStatus.Errored)).
Proof.
  intros Hs Hne. split.
  - intros k. by apply captures_keep_status.
  - intros c w0 l0. apply capture_status.
Qed.

Lemma plain_base_frame : BaseFrame plain_base.
Proof. split; done. Qed.

Lemma capture_never_changes_non_ok_witness :
  (forall k,
     status_at
       (captures (B := plain_base)
          (take k [CaptureException (JStr "test exception") None (Some scope0);
                   CaptureEvent event_exception None (Some scope0)])
          client_tracking (world_with RequestSessionStatus.Crashed)) 0
     = Some RequestSessionStatus.Crashed)
  /\ (forall c w0 l0,
        status_at (capture (B := plain_base) c client_tracking w0) l0 = status_at w0 l0
        \/ (status_at w0 l0 = Some RequestSessionStatus.Ok
            /\ status_at (capture (B := plain_base) c client_tracking w0) l0
               = Some RequestSessionStatus.Errored)).
Proof.
  apply (capture_never_changes_non_ok plain_base_frame).
  - reflexivity.
  - discriminate.
Defined.

Lemma exception_typed_with_values_spec event :
  exception_with_values event <-> exception_typed_with_values event.
Proof.
  unfold exception_with_values, exception_typed_with_values, NodeClient.eventType.
  split.
  - intros [Ht (e & vs & He & Hvs & Hne)]. split.
    + destruct (type event) as [t|]; [|by left]. right.
      case_bool_decide as Hempty; [left|right]; congruence.
    + destruct vs as [|v vs]; [done|]. by exists e, v, vs.
  - intros [Ht (e & v & vs & He & Hvs)]. split.
    + by destruct Ht as [->|[->| ->]].
    + by exists e, (v :: vs).
Qed.

(** C3. With session tracking on, a flusher set up and a scope whose request
    session is [Ok], [captureEvent] hands to the base capture path a world in
    which that session is [Errored] exactly when the event is typed
    ['exception'] (or carries no type, or an empty one) and has at least one
    exception value; in particular an event typed ['exception'] with a value
    makes the transition, while an event typed ['transaction'], and an event
    whose exception or exception values are absent or empty, go to the base
    class with the world untouched. *)
Theorem captureEvent_marks_errored_iff_exception {B : BaseClient}
    (event : Event) (hint : option EventHint) (scope : option Scope)
    (this : NodeClient) (w : World) (l : loc) :
  tracking this ->
  carries scope l ->
  status_at w l = Some RequestSessionStatus.Ok ->
  exists w1,
    NodeClient.captureEvent event hint scope this w
      = super_captureEvent event hint scope this w1
    /\ (status_at w1 l = Some RequestSessionStatus.Errored
        <-> exception_typed_with_values event)
    /\ (exception_typed_with_values event ->
        w1 = set_status l RequestSessionStatus.Errored w)
    /\ (~ exception_typed_with_values event -> w1 = w)
    /\ (forall e v vs,
          type event = Some "exception" ->
          exception event = Some e -> values e = Some (v :: vs) ->
          status_at w1 l = Some RequestSessionStatus.Errored)
    /\ (type event = Some "transaction" -> w1 = w)
    /\ (exception event = None
        \/ (exists e, exception event = Some e /\ (values e = None \/ values e = Some [])) ->
        w1 = w).
Proof.
  intros Ht Hc Hok. rewrite captureEvent_unfold, (tracking_true _ Ht). simpl.
  destruct (NodeClient.isException event) eqn:Hex.
  - apply isException_spec, exception_typed_with_values_spec in Hex.
    exists (marked scope w). rewrite (marked_carried _ _ _ Hc Hok).
    split; [done|]. split; [|split; [|split; [|split; [|split]]]].
    + split; [done|]. intros _. apply status_at_set_status_eq.
    + done.
    + done.
    + intros. apply status_at_set_status_eq.
    + intros Htx. destruct Hex as [[Hty|[Hty|Hty]] _]; congruence.
    + intros Hno. destruct Hex as [_ (e & v & vs & He & Hvs)].
      destruct Hno as [Hno|(e' & He' & [Hno|Hno])]; congruence.
  - assert (Hn : ~ exception_typed_with_values event).
    { intros Hx. apply exception_typed_with_values_spec, isException_spec in Hx.
      congruence. }
    exists w. split; [done|]. split; [|split; [|split; [|split; [|split]]]]; try done.
    + split; [|done]. intros Herr. rewrite Hok in Herr. done.
    + intros e v vs Hty He Hvs. exfalso. apply Hn. split; [by right; right|].
      by exists e, v, vs.
Qed.

Lemma captureEvent_marks_errored_iff_exception_witness :
  exists w1,
    NodeClient.captureEvent (B := plain_base) event_typed_exception None (Some scope0)
        client_tracking (world_with RequestSessionStatus.Ok)
      = super_captureEvent (BaseClient := plain_base) event_typed_exception None
          (Some scope0) client_tracking w1
    /\ (status_at w1 0 = Some RequestSessionStatus.Errored
        <-> exception_typed_with_values event_typed_exception)
    /\ (exception_typed_with_values event_typed_exception ->
        w1 = set_status 0 RequestSessionStatus.Errored (world_with RequestSessionStatus.Ok))
    /\ (~ exception_typed_with_values event_typed_exception ->
        w1 = world_with RequestSessionStatus.Ok)
    /\ (forall e v vs,
          type event_typed_exception = Some "exception" ->
          exception event_typed_exception = Some e -> values e = Some (v :: vs) ->
          status_at w1 0 = Some RequestSessionStatus.Errored)
    /\ (type event_typed_exception = Some "transaction" ->
        w1 = world_with RequestSessionStatus.Ok)
    /\ (exception event_typed_exception = None
        \/ (exists e, exception event_typed_exception = Some e
                      /\ (values e = None \/ values e = Some [])) ->
        w1 = world_with RequestSessionStatus.Ok).
Proof.
  apply (captureEvent_marks_errored_iff_exception (B := plain_base)).
  - split; [reflexivity|]. eexists. reflexivity.
  - exists scope0. split; reflexivity.
  - reflexivity.
Defined.

(** C10. An event whose [type] is absent or empty is treated as an
    exception: with session tracking on, a flusher set up, a scope whose
    request session is [Ok] and a non-empty [event.exception.values], the
    base capture path receives the session marked [Errored], and so does the
    caller when the base class leaves request sessions alone. *)
Theorem captureEvent_without_type_marks_errored {B : BaseClient}
    (event : Event) (hint : option EventHint) (scope : option Scope)
    (this : NodeClient) (w : World) (l : loc)
    (e : EventException) (v : Exception) (vs : list Exception) :
  type event = None \/ type event = Some "" ->
  exception event = Some e ->
  values e = Some (v :: vs) ->
  tracking this ->
  carries scope l ->
  status_at w l = Some RequestSessionStatus.Ok ->
  NodeClient.eventType event = "exception"
  /\ exists w1,
       NodeClient.captureEvent event hint scope this w
         = super_captureEvent event hint scope this w1
       /\ status_at w1 l = Some RequestSessionStatus.Errored
       /\ (BaseFrame B ->
           status_at (NodeClient.captureEvent event hint scope this w).2 l
           = Some RequestSessionStatus.Errored).
Proof.
  intros Hty He Hvs Ht Hc Hok.
  assert (Het : NodeClient.eventType event = "exception").
  { unfold NodeClient.eventType. by destruct Hty as [->| ->]. }
  split; [done|].
  assert (Hex : NodeClient.isException event = true).
  { apply isException_spec. split; [done|]. by exists e, (v :: vs). }
  rewrite captureEvent_unfold, (tracking_true _ Ht), Hex. simpl.
  rewrite (marked_carried _ _ _ Hc Hok).
  exists (set_status l RequestSessionStatus.Errored w).
  split; [done|]. split; [apply status_at_set_status_eq|].
  intros F. unfold status_at. rewrite super_captureEvent_heap.
  apply status_at_set_status_eq.
Qed.

Lemma captureEvent_without_type_marks_errored_witness :
  NodeClient.eventType event_exception = "exception"
  /\ exists w1,
       NodeClient.captureEvent (B := plain_base) event_exception None (Some scope0)
           client_tracking (world_with RequestSessionStatus.Ok)
         = super_captureEvent (BaseClient := plain_base) event_exception None (Some scope0)
             client_tracking w1
       /\ status_at w1 0 = Some RequestSessionStatus.Errored
       /\ (BaseFrame plain_base ->
           status_at
             (NodeClient.captureEvent (B := plain_base) event_exception None (Some scope0)
                client_tracking (world_with RequestSessionStatus.Ok)).2 0
           = Some RequestSessionStatus.Errored).
Proof.
  eapply (captureEvent_without_type_marks_errored (B := plain_base)).
  - left. reflexivity.
  - reflexivity.
  - reflexivity.
  - split; [reflexivity|]. eexists. reflexivity.
  - exists scope0. split; reflexivity.
  - reflexivity.
Defined.

Lemma count_flush_snoc cs c :
  count_flush (cs ++ [c]) = count_flush cs + (if decide (c = flusher_flush) then 1 else 0).
Proof.
  unfold count_flush. rewrite filter_app, length_app. f_equal.
  rewrite filter_cons, filter_nil. by case_decide.
Qed.

Lemma captureRequestSession_some this w f :
  _sessionFlusher this = Some f ->
  NodeClient._captureRequestSession this w
  = (this,
     {| heap := heap w;
        calls := calls w ++ flusher_increment None None
                   :: (if _isEnabled f then [] else [logger_warn closed_flusher_warning]) |}).
Proof.
  intros Hf. unfold NodeClient._captureRequestSession. rewrite Hf.
  unfold SessionFlusher_incrementSessionStatusCount, record_call.
  destruct this as [o b sf]; simpl in *; subst sf.
  destruct (_isEnabled f); simpl; [done|].
  by rewrite <- app_assoc.
Qed.

(** C4, as the code has it.  Without a session flusher,
    [_captureRequestSession] logs the warning and calls nothing else, so the
    request session is dropped; with one, it invokes the flusher's
    [incrementSessionStatusCount] exactly once and passes it no argument,
    neither a status nor a timestamp.  The client and the request sessions
    are as they were in both cases. *)
Theorem captureRequestSession_increments_without_argument
    (this : NodeClient) (w : World) :
  (_sessionFlusher this = None ->
     NodeClient._captureRequestSession this w
     = (this,
        {| heap := heap w;
           calls := calls w ++
             [logger_warn
                "Discarded request mode session because autoSessionTracking option was disabled"]
        |}))
  /\ (forall f, _sessionFlusher this = Some f ->
        (NodeClient._captureRequestSession this w).1 = this
        /\ heap (NodeClient._captureRequestSession this w).2 = heap w
        /\ exists rest,
             calls (NodeClient._captureRequestSession this w).2
               = calls w ++ flusher_increment None None :: rest
             /\ forall status timestamp, flusher_increment status timestamp ∉ rest).
Proof.
  split.
  - intros Hf. unfold NodeClient._captureRequestSession. by rewrite Hf.
  - intros f Hf. rewrite (captureRequestSession_some _ _ _ Hf). simpl.
    split; [done|]. split; [done|].
    eexists. split; [done|].
    intros st ts Hin. destruct (_isEnabled f).
    + by apply elem_of_nil in Hin.
    + apply list_elem_of_singleton in Hin. done.
Qed.

(** C4, as stated, fails: the request session of the scope is [Errored],
    a flusher is active, and the one increment call that is made carries no
    status at all. *)
Lemma captureRequestSession_passes_no_status :
  status_at (world_with RequestSessionStatus.Errored) 0 = Some RequestSessionStatus.Errored
  /\ calls (NodeClient._captureRequestSession client_tracking
              (world_with RequestSessionStatus.Errored)).2
     = [flusher_increment None None]
  /\ ~ (exists status timestamp,
          flusher_increment (Some status) timestamp
          ∈ calls (NodeClient._captureRequestSession client_tracking
                     (world_with RequestSessionStatus.Errored)).2).
Proof.
  split; [reflexivity|]. split; [reflexivity|].
  intros (st & ts & Hin). simpl in Hin.
  apply list_elem_of_singleton in Hin. done.
Qed.

Lemma close_unfold {B : BaseClient} timeout this w :
  NodeClient.close timeout this w
  = ((super_close timeout
        (match _sessionFlusher this with
         | Some f =>
             {| _options := _options this; _backend := _backend this;
                _sessionFlusher := Some (SessionFlusher_close f w).1 |}
         | None => this
         end)
        (match _sessionFlusher this with
         | Some f => (SessionFlusher_close f w).2
         | None => w
         end)).1.1.1,
     {| _options :=
          (super_close timeout
             (match _sessionFlusher this with
              | Some f =>
                  {| _options := _options this; _backend := _backend this;
                     _sessionFlusher := Some (SessionFlusher_close f w).1 |}
              | None => this
              end)
             (match _sessionFlusher this with
              | Some f => (SessionFlusher_close f w).2
              | None => w
              end)).1.1.2;
        _backend :=
          (super_close timeout
             (match _sessionFlusher this with
              | Some f =>
                  {| _options := _options this; _backend := _backend this;
                     _sessionFlusher := Some (SessionFlusher_close f w).1 |}
              | None => this
              end)
             (match _sessionFlusher this with
              | Some f => (SessionFlusher_close f w).2
              | None => w
              end)).1.2;
        _sessionFlusher := (fun f => (SessionFlusher_close f w).1) <$> _sessionFlusher this |},
     (super_close timeout
        (match _sessionFlusher this with
         | Some f =>
             {| _options := _options this; _backend := _backend this;
                _sessionFlusher := Some (SessionFlusher_close f w).1 |}
         | None => this
         end)
        (match _sessionFlusher this with
         | Some f => (SessionFlusher_close f w).2
         | None => w
         end)).2).
Proof.
  unfold NodeClient.close.
  destruct (_sessionFlusher this) as [f|] eqn:Hf; simpl.
  - destruct (SessionFlusher_close f w) as [f1 w1]; simpl.
    by destruct (super_close _ _ _) as [[[r o] b] w2].
  - destruct (super_close _ _ _) as [[[r o] b] w2]; simpl. by rewrite Hf.
Qed.

Lemma SessionFlusher_close_flusher f w :
  (SessionFlusher_close f w).1
  = {| flusher_transport := flusher_transport f;
       flusher_release := flusher_release f;
       flusher_environment := flusher_environment f;
       _isEnabled := false;
       _intervalRunning := false |}.
Proof. unfold SessionFlusher_close, SessionFlusher_flush. by destruct (_isEnabled f). Qed.

Lemma SessionFlusher_close_world f w :
  (SessionFlusher_close f w).2
  = {| heap := heap w;
       calls := calls w ++ (if _isEnabled f then [flusher_flush] else []) |}.
Proof.
  unfold SessionFlusher_close, SessionFlusher_flush, record_call.
  destruct (_isEnabled f); simpl; [done|]. rewrite app_nil_r. by destruct w.
Qed.

Lemma step_close {B : BaseClient} timeout this w :
  step (OpClose timeout) (this, w)
  = ((NodeClient.close timeout this w).1.2, (NodeClient.close timeout this w).2).
Proof. simpl. by destruct (NodeClient.close timeout this w) as [[r this'] w']. Qed.

Lemma run_cons {B : BaseClient} o os st : run (o :: os) st = run os (step o st).
Proof. reflexivity. Qed.

Lemma close_count_flush {B : BaseClient} {F : BaseFrame B} timeout this w :
  count_flush (calls (NodeClient.close timeout this w).2)
  = count_flush (calls w)
    + match _sessionFlusher this with
      | Some f => if _isEnabled f then 1 else 0
      | None => 0
      end.
Proof.
  rewrite close_unfold. simpl. rewrite super_close_flush.
  destruct (_sessionFlusher this) as [f|]; [|lia].
  rewrite SessionFlusher_close_world. simpl.
  destruct (_isEnabled f).
  - rewrite count_flush_snoc, decide_True by done. done.
  - rewrite app_nil_r. lia.
Qed.

Lemma closes_add_no_flush {B : BaseClient} {F : BaseFrame B} timeouts this w f :
  _sessionFlusher this = Some f ->
  _isEnabled f = false ->
  count_flush (calls (run (OpClose <$> timeouts) (this, w)).2) = count_flush (calls w).
Proof.
  revert this w f. induction timeouts as [|t ts IH]; intros this w f Hf He; [done|].
  rewrite fmap_cons, run_cons, step_close.
  erewrite IH.
  - rewrite close_count_flush, Hf, He. lia.
  - rewrite close_unfold. simpl. rewrite Hf. simpl. reflexivity.
  - by rewrite SessionFlusher_close_flusher.
Qed.

(** C5. On a client with a session flusher, whatever the state of its
    timer, [close] first closes the flusher, which leaves it disabled with
    its timer cancelled, and then hands the client and the world so obtained
    to the base class's [close]; the closed flusher stays on the client.
    Closing a flusher that is still enabled makes exactly one [flush];
    closing one that is already closed makes none, so that, when the base
    class does not call the flusher, one [close] or any number of them in a
    row log exactly one more [flush].  After [close] an increment requested
    from the flusher is ignored with a warning and a tick of its timer does
    nothing. *)
Theorem close_closes_session_flusher {B : BaseClient}
    (timeout : option Z) (this : NodeClient) (w : World) (f : SessionFlusher) :
  _sessionFlusher this = Some f ->
  exists f1 this1 w1,
    f1 = {| flusher_transport := flusher_transport f;
            flusher_release := flusher_release f;
            flusher_environment := flusher_environment f;
            _isEnabled := false;
            _intervalRunning := false |}
    /\ this1 = {| _options := _options this; _backend := _backend this;
                  _sessionFlusher := Some f1 |}
    /\ heap w1 = heap w
    /\ (_isEnabled f = true -> calls w1 = calls w ++ [flusher_flush])
    /\ (_isEnabled f = false -> calls w1 = calls w)
    /\ NodeClient.close timeout this w
       = ((super_close timeout this1 w1).1.1.1,
          {| _options := (super_close timeout this1 w1).1.1.2;
             _backend := (super_close timeout this1 w1).1.2;
             _sessionFlusher := Some f1 |},
          (super_close timeout this1 w1).2)
    /\ (BaseFrame B ->
        (_isEnabled f = true ->
           count_flush (calls (NodeClient.close timeout this w).2)
           = S (count_flush (calls w)))
        /\ (_isEnabled f = false ->
           count_flush (calls (NodeClient.close timeout this w).2)
           = count_flush (calls w))
        /\ (_isEnabled f = true ->
           forall timeouts,
             count_flush (calls (run (OpClose <$> timeout :: timeouts) (this, w)).2)
             = S (count_flush (calls w))))
    /\ (forall w',
        (NodeClient._captureRequestSession (NodeClient.close timeout this w).1.2 w').2
        = {| heap := heap w';
             calls := calls w' ++ [flusher_increment None None;
                                   logger_warn closed_flusher_warning] |})
    /\ (forall w', SessionFlusher_tick f1 w' = (f1, w')).
Proof.
  intros Hf. eexists _, _, (SessionFlusher_close f w).2.
  split; [reflexivity|]. split; [reflexivity|].
  rewrite SessionFlusher_close_world.
  split; [reflexivity|]. split; [intros ->; reflexivity|].
  split; [intros ->; simpl; by rewrite app_nil_r|].
  assert (Hclose : NodeClient.close timeout this w
    = ((super_close timeout
          {| _options := _options this; _backend := _backend this;
             _sessionFlusher :=
               Some {| flusher_transport := flusher_transport f;
                       flusher_release := flusher_release f;
                       flusher_environment := flusher_environment f;
                       _isEnabled := false;
                       _intervalRunning := false |} |}
          {| heap := heap w;
             calls := calls w ++ (if _isEnabled f then [flusher_flush] else []) |}).1.1.1,
       {| _options :=
            (super_close timeout
               {| _options := _options this; _backend := _backend this;
                  _sessionFlusher :=
                    Some {| flusher_transport := flusher_transport f;
                            flusher_release := flusher_release f;
                            flusher_environment := flusher_environment f;
                            _isEnabled := false;
                            _intervalRunning := false |} |}
               {| heap := heap w;
                  calls := calls w ++ (if _isEnabled f then [flusher_flush] else []) |}).1.1.2;
          _backend :=
            (super_close timeout
               {| _options := _options this; _backend := _backend this;
                  _sessionFlusher :=
                    Some {| flusher_transport := flusher_transport f;
                            flusher_release := flusher_release f;
                            flusher_environment := flusher_environment f;
                            _isEnabled := false;
                            _intervalRunning := false |} |}
               {| heap := heap w;
                  calls := calls w ++ (if _isEnabled f then [flusher_flush] else []) |}).1.2;
          _sessionFlusher :=
            Some {| flusher_transport := flusher_transport f;
                    flusher_release := flusher_release f;
                    flusher_environment := flusher_environment f;
                    _isEnabled := false;
                    _intervalRunning := false |} |},
       (super_close timeout
          {| _options := _options this; _backend := _backend this;
             _sessionFlusher :=
               Some {| flusher_transport := flusher_transport f;
                       flusher_release := flusher_release f;
                       flusher_environment := flusher_environment f;
                       _isEnabled := false;
                       _intervalRunning := false |} |}
          {| heap := heap w;
             calls := calls w ++ (if _isEnabled f then [flusher_flush] else []) |}).2)).
  { rewrite close_unfold, Hf. simpl.
    by rewrite SessionFlusher_close_flusher, SessionFlusher_close_world. }
  split; [exact Hclose|]. split; [|split].
  - intros F. split; [|split].
    + intros He. rewrite close_count_flush, Hf, He. lia.
    + intros He. rewrite close_count_flush, Hf, He. lia.
    + intros He timeouts. rewrite fmap_cons, run_cons, step_close.
      erewrite closes_add_no_flush.
      * rewrite close_count_flush, Hf, He. lia.
      * rewrite Hclose. reflexivity.
      * reflexivity.
  - intros w'. erewrite captureRequestSession_some; [|rewrite Hclose; reflexivity].
    reflexivity.
  - intros w'. reflexivity.
Qed.

Lemma close_closes_session_flusher_witness :
  exists f1 this1 w1,
    f1 = {| flusher_transport := TransportRef 0;
            flusher_release := "1.4";
            flusher_environment := None;
            _isEnabled := false;
            _intervalRunning := false |}
    /\ this1 = {| _options := _options client_fresh; _backend := backend0;
                  _sessionFlusher := Some f1 |}
    /\ heap w1 = heap (world_with RequestSessionStatus.Ok)
    /\ (true = true -> calls w1 = calls (world_with RequestSessionStatus.Ok) ++ [flusher_flush])
    /\ (true = false -> calls w1 = calls (world_with RequestSessionStatus.Ok))
    /\ NodeClient.close (B := plain_base) (Some 1%Z) client_timer_cleared
         (world_with RequestSessionStatus.Ok)
       = ((super_close (BaseClient := plain_base) (Some 1%Z) this1 w1).1.1.1,
          {| _options := (super_close (BaseClient := plain_base) (Some 1%Z) this1 w1).1.1.2;
             _backend := (super_close (BaseClient := plain_base) (Some 1%Z) this1 w1).1.2;
             _sessionFlusher := Some f1 |},
          (super_close (BaseClient := plain_base) (Some 1%Z) this1 w1).2)
    /\ (BaseFrame plain_base ->
        (true = true ->
           count_flush (calls (NodeClient.close (B := plain_base) (Some 1%Z)
                                 client_timer_cleared
                                 (world_with RequestSessionStatus.Ok)).2)
           = S (count_flush (calls (world_with RequestSessionStatus.Ok))))
        /\ (true = false ->
           count_flush (calls (NodeClient.close (B := plain_base) (Some 1%Z)
                                 client_timer_cleared
                                 (world_with RequestSessionStatus.Ok)).2)
           = count_flush (calls (world_with RequestSessionStatus.Ok)))
        /\ (true = true ->
           forall timeouts,
             count_flush
               (calls (run (B := plain_base) (OpClose <$> Some 1%Z :: timeouts)
                         (client_timer_cleared, world_with RequestSessionStatus.Ok)).2)
             = S (count_flush (calls (world_with RequestSessionStatus.Ok)))))
    /\ (forall w',
        (NodeClient._captureRequestSession
           (NodeClient.close (B := plain_base) (Some 1%Z) client_timer_cleared
              (world_with RequestSessionStatus.Ok)).1.2 w').2
        = {| heap := heap w';
             calls := calls w' ++ [flusher_increment None None;
                                   logger_warn closed_flusher_warning] |})
    /\ (forall w', SessionFlusher_tick f1 w' = (f1, w')).
Proof.
  apply (close_closes_session_flusher (B := plain_base) (Some 1%Z) client_timer_cleared
           (world_with RequestSessionStatus.Ok)
           {| flusher_transport := TransportRef 0;
              flusher_release := "1.4";
              flusher_environment := None;
              _isEnabled := true;
              _intervalRunning := false |}).
  reflexivity.
Defined.

Lemma initSessionFlusher_no_release this w :
  truthy_string (release (_options this)) = false ->
  NodeClient.initSessionFlusher this w
  = (this, record_call
       (logger_warn "Cannot initialise an instance of SessionFlusher if no release is provided!")
       w).
Proof.
  unfold NodeClient.initSessionFlusher, truthy_string.
  destruct (release (_options this)) as [r|]; [|done].
  destruct (bool_decide (r = "")); done.
Qed.

Lemma close_options {B : BaseClient} timeout this w :
  release (_options (NodeClient.close timeout this w).1.2) = release (_options this)
  /\ environment (_options (NodeClient.close timeout this w).1.2)
     = environment (_options this)
  /\ getTransport (_backend (NodeClient.close timeout this w).1.2)
     = getTransport (_backend this).
Proof.
  rewrite close_unfold. simpl.
  rewrite super_close_release, super_close_environment, super_close_transport.
  by destruct (_sessionFlusher this).
Qed.

Lemma close_flusher {B : BaseClient} timeout this w :
  _sessionFlusher (NodeClient.close timeout this w).1.2
  = (fun f => {| flusher_transport := flusher_transport f;
                 flusher_release := flusher_release f;
                 flusher_environment := flusher_environment f;
                 _isEnabled := false;
                 _intervalRunning := false |}) <$> _sessionFlusher this.
Proof.
  rewrite close_unfold. simpl.
  destruct (_sessionFlusher this) as [f|]; [|done].
  simpl. by rewrite SessionFlusher_close_flusher.
Qed.

Lemma step_close_client {B : BaseClient} timeout this w :
  (step (OpClose timeout) (this, w)).1 = (NodeClient.close timeout this w).1.2.
Proof. simpl. by destruct (NodeClient.close timeout this w) as [[r this'] w']. Qed.

Lemma step_identity {B : BaseClient} o st :
  release (_options (step o st).1) = release (_options st.1)
  /\ environment (_options (step o st).1) = environment (_options st.1)
  /\ getTransport (_backend (step o st).1) = getTransport (_backend st.1).
Proof.
  destruct st as [this w], o as [c|t| |]; try done.
  - rewrite step_close_client. apply close_options.
  - simpl. unfold NodeClient.initSessionFlusher.
    destruct (release (_options this)) as [r|] eqn:Hr; [|simpl; by rewrite Hr].
    case_bool_decide; simpl; by rewrite Hr.
  - simpl. unfold NodeClient._captureRequestSession.
    destruct (_sessionFlusher this) as [f|]; [|done].
    unfold SessionFlusher_incrementSessionStatusCount.
    by destruct (_isEnabled f).
Qed.

Lemma step_no_flusher {B : BaseClient} o st :
  truthy_string (release (_options st.1)) = false ->
  _sessionFlusher st.1 = None ->
  _sessionFlusher (step o st).1 = None.
Proof.
  intros Hr Hf. destruct st as [this w], o as [c|t| |]; try done.
  - rewrite step_close_client, close_flusher. simpl in Hf. by rewrite Hf.
  - simpl in *. by rewrite initSessionFlusher_no_release.
  - simpl in *. unfold NodeClient._captureRequestSession. by rewrite Hf.
Qed.

Lemma run_snoc {B : BaseClient} os o st : run (os ++ [o]) st = step o (run os st).
Proof. unfold run. by rewrite foldl_app. Qed.

Lemma run_no_flusher {B : BaseClient} os version backend options w :
  truthy_string (release options) = false ->
  release (_options (run os (NodeClient.new version backend options, w)).1) = release options
  /\ _sessionFlusher (run os (NodeClient.new version backend options, w)).1 = None.
Proof.
  intros Hr. induction os as [|o os [IHo IHf]] using rev_ind; [done|].
  rewrite run_snoc. split.
  - by rewrite (proj1 (step_identity _ _)).
  - apply step_no_flusher; [by rewrite IHo|done].
Qed.

(** C9. [initSessionFlusher] has a result on every client.  When the
    release is absent (or empty), it logs the warning and leaves the client
    as it was; a client built by the constructor from such options is
    therefore without a session flusher after any sequence of method calls,
    capture calls on it hand the world untouched to the base class, and
    [_captureRequestSession] drops the session with a warning.  When a
    release is present, the client gets a fresh [SessionFlusher] bound to the
    transport of its backend and to its release and environment, and nothing
    is logged. *)
Theorem initSessionFlusher_needs_release {B : BaseClient}
    (this : NodeClient) (w : World) :
  (truthy_string (release (_options this)) = false ->
     NodeClient.initSessionFlusher this w
     = (this,
        {| heap := heap w;
           calls := calls w ++
             [logger_warn
                "Cannot initialise an instance of SessionFlusher if no release is provided!"]
        |}))
  /\ (forall r, release (_options this) = Some r -> r <> "" ->
        NodeClient.initSessionFlusher this w
        = ({| _options := _options this; _backend := _backend this;
              _sessionFlusher :=
                Some {| flusher_transport := getTransport (_backend this);
                        flusher_release := r;
                        flusher_environment := environment (_options this);
                        _isEnabled := true;
                        _intervalRunning := true |} |}, w))
  /\ (forall version backend options os w0,
        truthy_string (release options) = false ->
        _sessionFlusher (run os (NodeClient.new version backend options, w0)).1 = None)
  /\ (_sessionFlusher this = None ->
        (forall exception hint scope,
           NodeClient.captureException exception hint scope this w
           = super_captureException exception hint scope this w)
        /\ (forall event hint scope,
           NodeClient.captureEvent event hint scope this w
           = super_captureEvent event hint scope this w)
        /\ NodeClient._captureRequestSession this w
           = (this,
              {| heap := heap w;
                 calls := calls w ++
                   [logger_warn
                      "Discarded request mode session because autoSessionTracking option was disabled"]
              |})).
Proof.
  split; [|split; [|split]].
  - apply initSessionFlusher_no_release.
  - intros r Hr Hne. unfold NodeClient.initSessionFlusher. rewrite Hr.
    by rewrite bool_decide_eq_false_2.
  - intros version backend options os w0 Hr. by apply run_no_flusher.
  - intros Hf. split; [|split].
    + intros e h s. rewrite captureException_unfold, Hf.
      by rewrite andb_false_r.
    + intros e h s. rewrite captureEvent_unfold, Hf.
      by rewrite andb_false_r.
    + unfold NodeClient._captureRequestSession. by rewrite Hf.
Qed.

(** ** The client's test-suite, replayed on [plain_base] *)

Example test_requestHandler_not_used :
  status_at
    (NodeClient.captureException (B := plain_base) (JStr "test exception") None (Some scope0)
       client_fresh (world_with RequestSessionStatus.Ok)).2 0
  = Some RequestSessionStatus.Ok.
Proof. reflexivity. Qed.

Example test_autoSessionTracking_disabled :
  status_at
    (NodeClient.captureException (B := plain_base) (JStr "test exception") None (Some scope0)
       client_not_tracking (world_with RequestSessionStatus.Ok)).2 0
  = Some RequestSessionStatus.Ok.
Proof. reflexivity. Qed.

Example test_crashed_not_overridden :
  status_at
    (NodeClient.captureException (B := plain_base) (JStr "test exception") None (Some scope0)
       client_tracking (world_with RequestSessionStatus.Crashed)).2 0
  = Some RequestSessionStatus.Crashed.
Proof. reflexivity. Qed.

Example test_error_within_request_bounds :
  status_at
    (NodeClient.captureException (B := plain_base) (JStr "test exception") None (Some scope0)
       client_tracking (world_with RequestSessionStatus.Ok)).2 0
  = Some RequestSessionStatus.Errored.
Proof. reflexivity. Qed.

Example test_error_outside_request_bounds :
  getRequestSession Scope_new = None
  /\ (NodeClient.captureException (B := plain_base) (JStr "test exception") None
        (Some Scope_new) client_tracking empty_world).2 = empty_world.
Proof. split; reflexivity. Qed.

Example test_captureEvent_tracking_disabled :
  status_at
    (NodeClient.captureEvent (B := plain_base) event_exception None (Some scope0)
       client_not_tracking (world_with RequestSessionStatus.Ok)).2 0
  = Some RequestSessionStatus.Ok.
Proof. reflexivity. Qed.

Example test_captureEvent_with_exception :
  status_at
    (NodeClient.captureEvent (B := plain_base) event_exception
       (Some {| event_id := None |}) (Some scope0)
       client_tracking (world_with RequestSessionStatus.Ok)).2 0
  = Some RequestSessionStatus.Errored.
Proof. reflexivity. Qed.

Example test_captureEvent_without_exception :
  status_at
    (NodeClient.captureEvent (B := plain_base) event_message
       (Some {| event_id := None |}) (Some scope0)
       client_tracking (world_with RequestSessionStatus.Ok)).2 0
  = Some RequestSessionStatus.Ok.
Proof. reflexivity. Qed.

Example test_captureEvent_with_transaction :
  status_at
    (NodeClient.captureEvent (B := plain_base) event_transaction None (Some scope0)
       client_tracking (world_with RequestSessionStatus.Ok)).2 0
  = Some RequestSessionStatus.Ok.
Proof. reflexivity. Qed.

Example test_captureEvent_requestHandler_not_used :
  status_at
    (NodeClient.captureEvent (B := plain_base) event_exception None (Some scope0)
       client_fresh (world_with RequestSessionStatus.Ok)).2 0
  = Some RequestSessionStatus.Ok.
Proof. reflexivity. Qed.

Example test_close_disables_sessionFlusher :
  (_isEnabled <$> _sessionFlusher
     (NodeClient.close (B := plain_base) (Some 1%Z) client_timer_cleared empty_world).1.2)
  = Some false
  /\ count_flush
       (calls (NodeClient.close (B := plain_base) (Some 1%Z) client_timer_cleared
                 empty_world).2) = 1.
Proof. split; reflexivity. Qed.

(** * Properties of the sampling decision *)

Section Sampling.
Import Tracing.

Lemma startTransaction_sampled cfg ctx custom random :
  transaction_sampled (startTransaction cfg ctx custom random).1
  = decision_sampled (decideSampling ctx cfg custom random).1.
Proof. unfold startTransaction. by destruct (decideSampling _ _ _ _). Qed.

Lemma startTransaction_warnings cfg ctx custom random :
  (startTransaction cfg ctx custom random).2 = (decideSampling ctx cfg custom random).2.
Proof. unfold startTransaction. by destruct (decideSampling _ _ _ _). Qed.

Lemma startTransaction_method cfg ctx custom random :
  fst <$> transactionSampling (startTransaction cfg ctx custom random).1
  = decision_method (decideSampling ctx cfg custom random).1.
Proof.
  unfold startTransaction. destruct (decideSampling _ _ _ _) as [d ws]; simpl.
  by destruct (decision_method d).
Qed.

Lemma wrong_type_rejected v :
  wrong_type v -> isValidSampleRate v = inr NotBooleanOrNumber.
Proof.
  intros [Hb Hn]. destruct v as [| |b|n|s|fs]; simpl; try done.
  - by destruct (Hb b).
  - by rewrite (Hn n eq_refl).
Qed.

Lemma out_of_bounds_rejected v :
  out_of_bounds v -> isValidSampleRate v = inr OutOfBounds.
Proof.
  intros [[neg ->]|(q & -> & Hq)]; simpl; [done|].
  destruct (Qle_bool 0 q && Qle_bool q 1) eqn:Hin; [|done].
  apply andb_true_iff in Hin as [H0 H1].
  apply Qle_bool_iff in H0, H1.
  destruct Hq as [Hq|Hq]; exfalso; eapply Qlt_not_le; eauto.
Qed.

Lemma byRate_rejected method v random r :
  isValidSampleRate v = inr r ->
  byRate method v random
  = ({| decision_sampled := false; decision_method := None; decision_rate := None |},
     [warning r]).
Proof. intros Hv. unfold byRate. by rewrite Hv. Qed.

Lemma decideSampling_consulted ctx cfg custom random v :
  consulted ctx cfg custom = Some v ->
  exists method, decideSampling ctx cfg custom random = byRate method v random.
Proof.
  unfold consulted, decideSampling.
  destruct (sampled ctx); [done|].
  destruct (tracesSampler cfg) as [sampler|].
  - intros [= <-]. by eexists.
  - destruct (parentSampled ctx); [done|].
    intros ->. by eexists.
Qed.

End Sampling.

(** C6. Whatever the sampling configuration and the parent's decision, a
    transaction context that carries an explicit boolean [sampled] yields a
    transaction whose [sampled] is that boolean, with [Explicit] recorded as
    the sampling method and no warning logged. *)
Theorem explicit_sampled_is_honoured
    (cfg : Tracing.SamplingConfig) (ctx : Tracing.TransactionContext)
    (custom : list (string * JSValue)) (random : Q) (b : bool) :
  Tracing.sampled ctx = Some b ->
  Tracing.transaction_sampled (Tracing.startTransaction cfg ctx custom random).1 = b
  /\ Tracing.transactionSampling (Tracing.startTransaction cfg ctx custom random).1
     = Some (TransactionSamplingMethod.Explicit, None)
  /\ (Tracing.startTransaction cfg ctx custom random).2 = [].
Proof.
  intros Hs. unfold Tracing.startTransaction, Tracing.decideSampling.
  by rewrite Hs.
Qed.

Lemma explicit_sampled_is_honoured_witness :
  Tracing.transaction_sampled
    (Tracing.startTransaction (with_sampler (JNum (Finite 0)))
       (dogpark None (Some true)) [] (1 # 2)).1 = true
  /\ Tracing.transactionSampling
       (Tracing.startTransaction (with_sampler (JNum (Finite 0)))
          (dogpark None (Some true)) [] (1 # 2)).1
     = Some (TransactionSamplingMethod.Explicit, None)
  /\ (Tracing.startTransaction (with_sampler (JNum (Finite 0)))
        (dogpark None (Some true)) [] (1 # 2)).2 = [].
Proof.
  apply (explicit_sampled_is_honoured (with_sampler (JNum (Finite 0)))
           (dogpark None (Some true)) [] (1 # 2) true).
  reflexivity.
Defined.

(** C7, as the sampler has it.  For a transaction started without an
    explicit [sampled]: the return value of a configured custom sampler
    decides, whatever the parent's decision, so that a sampler returning a
    boolean overrides the opposite [parentSampled]; with no sampler but a
    static rate configured, a boolean [parentSampled] is the decision, with
    method [Inheritance], whatever the rate; with no sampler and no parent
    decision the static rate decides; and with neither a rate nor a sampler
    configured the decision is [false], whatever the parent's decision. *)
Theorem sampling_precedence
    (cfg : Tracing.SamplingConfig) (ctx : Tracing.TransactionContext)
    (custom : list (string * JSValue)) (random : Q) :
  Tracing.sampled ctx = None ->
  (forall sampler v,
     Tracing.tracesSampler cfg = Some sampler ->
     sampler {| Tracing.transactionContext := ctx;
                Tracing.sampling_parentSampled := Tracing.parentSampled ctx;
                Tracing.customSamplingContext := custom |} = v ->
     Tracing.transaction_sampled (Tracing.startTransaction cfg ctx custom random).1
     = match Tracing.isValidSampleRate v with
       | inl q => Tracing.draw random q
       | inr _ => false
       end
     /\ (forall b, v = JBool b ->
           Tracing.transaction_sampled (Tracing.startTransaction cfg ctx custom random).1 = b
           /\ fst <$> Tracing.transactionSampling
                        (Tracing.startTransaction cfg ctx custom random).1
              = Some TransactionSamplingMethod.Sampler))
  /\ (forall rate b,
        Tracing.tracesSampler cfg = None ->
        Tracing.tracesSampleRate cfg = Some rate ->
        Tracing.parentSampled ctx = Some b ->
        Tracing.transaction_sampled (Tracing.startTransaction cfg ctx custom random).1 = b
        /\ Tracing.transactionSampling (Tracing.startTransaction cfg ctx custom random).1
           = Some (TransactionSamplingMethod.Inheritance, None)
        /\ (Tracing.startTransaction cfg ctx custom random).2 = [])
  /\ (forall rate,
        Tracing.tracesSampler cfg = None ->
        Tracing.tracesSampleRate cfg = Some rate ->
        Tracing.parentSampled ctx = None ->
        Tracing.transaction_sampled (Tracing.startTransaction cfg ctx custom random).1
        = match Tracing.isValidSampleRate rate with
          | inl q => Tracing.draw random q
          | inr _ => false
          end)
  /\ (Tracing.tracesSampler cfg = None ->
      Tracing.tracesSampleRate cfg = None ->
      Tracing.transaction_sampled (Tracing.startTransaction cfg ctx custom random).1 = false).
Proof.
  intros Hs. split; [|split; [|split]].
  - intros sampler v Hsam Hv.
    assert (Hd : Tracing.decideSampling ctx cfg custom random
                 = Tracing.byRate TransactionSamplingMethod.Sampler v random).
    { unfold Tracing.decideSampling. by rewrite Hs, Hsam, Hv. }
    rewrite startTransaction_method, startTransaction_sampled, Hd.
    split.
    + unfold Tracing.byRate. by destruct (Tracing.isValidSampleRate v).
    + intros b ->. unfold Tracing.byRate; simpl. by destruct b.
  - intros rate b Hsam Hrate Hp.
    unfold Tracing.startTransaction, Tracing.decideSampling.
    by rewrite Hs, Hsam, Hrate, Hp.
  - intros rate Hsam Hrate Hp.
    rewrite startTransaction_sampled.
    unfold Tracing.decideSampling. rewrite Hs, Hsam, Hrate, Hp.
    unfold Tracing.byRate. by destruct (Tracing.isValidSampleRate rate).
  - intros Hsam Hrate.
    rewrite startTransaction_sampled.
    unfold Tracing.decideSampling. by rewrite Hs, Hsam, Hrate.
Qed.

Lemma sampling_precedence_witness :
  Tracing.transaction_sampled
    (Tracing.startTransaction (with_rate (JNum (Finite (1 # 2))))
       (dogpark (Some true) None) [] 1).1 = true
  /\ Tracing.transactionSampling
       (Tracing.startTransaction (with_rate (JNum (Finite (1 # 2))))
          (dogpark (Some true) None) [] 1).1
     = Some (TransactionSamplingMethod.Inheritance, None)
  /\ (Tracing.startTransaction (with_rate (JNum (Finite (1 # 2))))
        (dogpark (Some true) None) [] 1).2 = [].
Proof.
  apply (proj1 (proj2 (sampling_precedence (with_rate (JNum (Finite (1 # 2))))
                         (dogpark (Some true) None) [] 1 eq_refl))
           (JNum (Finite (1 # 2))) true);
    reflexivity.
Defined.

(** C7, as stated, fails: with neither a rate nor a sampler configured, a
    parent's positive decision is not inherited; the transaction is not
    sampled and no sampling method is recorded. *)
Lemma parent_decision_needs_tracing_enabled :
  Tracing.tracesSampler tracing_disabled = None
  /\ Tracing.sampled (dogpark (Some true) None) = None
  /\ Tracing.parentSampled (dogpark (Some true) None) = Some true
  /\ Tracing.transaction_sampled
       (Tracing.startTransaction tracing_disabled (dogpark (Some true) None) [] (1 # 2)).1
     = false
  /\ Tracing.transactionSampling
       (Tracing.startTransaction tracing_disabled (dogpark (Some true) None) [] (1 # 2)).1
     = None.
Proof. repeat split. Qed.

(** C8, as the sampler has it.  When the value read as the effective rate
    of a call (the custom sampler's return value, or the static rate when no
    sampler is configured and the parent made no decision, the transaction
    context carrying no explicit [sampled]) is not a boolean and not a
    number, or is [NaN], the transaction is not sampled and exactly one
    warning is logged, the one about the type; when it is a number outside
    the interval from 0 to 1, the transaction is not sampled and exactly one
    warning is logged, the one about the bounds. *)
Theorem invalid_rate_is_rejected_once
    (cfg : Tracing.SamplingConfig) (ctx : Tracing.TransactionContext)
    (custom : list (string * JSValue)) (random : Q) (v : JSValue) :
  Tracing.consulted ctx cfg custom = Some v ->
  (Tracing.wrong_type v ->
     Tracing.transaction_sampled (Tracing.startTransaction cfg ctx custom random).1 = false
     /\ (Tracing.startTransaction cfg ctx custom random).2
        = ["Sample rate must be a boolean or a number"])
  /\ (Tracing.out_of_bounds v ->
     Tracing.transaction_sampled (Tracing.startTransaction cfg ctx custom random).1 = false
     /\ (Tracing.startTransaction cfg ctx custom random).2
        = ["Sample rate must be between 0 and 1"]).
Proof.
  intros Hc.
  destruct (decideSampling_consulted ctx cfg custom random v Hc) as [method Hd].
  rewrite startTransaction_sampled, startTransaction_warnings, Hd.
  split; intros Hv.
  - by rewrite (byRate_rejected _ _ _ _ (wrong_type_rejected v Hv)).
  - by rewrite (byRate_rejected _ _ _ _ (out_of_bounds_rejected v Hv)).
Qed.

Lemma invalid_rate_is_rejected_once_witness :
  Tracing.transaction_sampled
    (Tracing.startTransaction (with_rate (JNum (Finite (-26)))) (dogpark None None) []
       (1 # 2)).1 = false
  /\ (Tracing.startTransaction (with_rate (JNum (Finite (-26)))) (dogpark None None) []
        (1 # 2)).2
     = ["Sample rate must be between 0 and 1"].
Proof.
  apply (proj2 (invalid_rate_is_rejected_once (with_rate (JNum (Finite (-26))))
                  (dogpark None None) [] (1 # 2) (JNum (Finite (-26))) eq_refl)).
  right. exists (-26)%Q. split; [reflexivity|]. left. reflexivity.
Defined.

(** C8, as stated, fails: the configured rate 26 lies outside the interval
    from 0 to 1, yet a transaction started with an explicit [sampled: true]
    is sampled and no warning is logged. *)
Lemma invalid_rate_with_explicit_decision :
  Tracing.tracesSampleRate (with_rate (JNum (Finite 26))) = Some (JNum (Finite 26))
  /\ Tracing.out_of_bounds (JNum (Finite 26))
  /\ Tracing.transaction_sampled
       (Tracing.startTransaction (with_rate (JNum (Finite 26)))
          (dogpark None (Some true)) [] (1 # 2)).1 = true
  /\ (Tracing.startTransaction (with_rate (JNum (Finite 26)))
        (dogpark None (Some true)) [] (1 # 2)).2 = [].
Proof.
  split; [reflexivity|]. split; [|split; reflexivity].
  right. exists 26%Q. split; [reflexivity|]. right. reflexivity.
Qed.

(** ** The sampler's test-suite, replayed *)

Example test_tracing_disabled :
  Tracing.transaction_sampled
    (Tracing.startTransaction tracing_disabled (dogpark None None) [] (1 # 2)).1 = false.
Proof. reflexivity. Qed.

Example test_tracesSampleRate_0 :
  Tracing.transaction_sampled
    (Tracing.startTransaction (with_rate (JNum (Finite 0))) (dogpark None None) [] (1 # 2)).1
  = false.
Proof. reflexivity. Qed.

Example test_tracesSampleRate_1 :
  Tracing.transaction_sampled
    (Tracing.startTransaction (with_rate (JNum (Finite 1))) (dogpark None None) [] (1 # 2)).1
  = true.
Proof. reflexivity. Qed.

Example test_prefer_tracesSampler_to_tracesSampleRate :
  Tracing.transaction_sampled
    (Tracing.startTransaction
       {| Tracing.tracesSampleRate := Some (JNum (Finite 0));
          Tracing.tracesSampler := Some (fun _ => JBool true) |}
       (dogpark None None) [] (1 # 2)).1
  = true.
Proof. reflexivity. Qed.

Example test_method_and_rate_from_tracesSampler :
  Tracing.transactionSampling
    (Tracing.startTransaction (with_sampler (JNum (Finite (1121 # 10000))))
       (dogpark None None) [] (1 # 2)).1
  = Some (TransactionSamplingMethod.Sampler, Some (1121 # 10000)%Q).
Proof. reflexivity. Qed.

Example test_method_and_rate_from_tracesSampleRate :
  Tracing.transactionSampling
    (Tracing.startTransaction (with_rate (JNum (Finite (1121 # 10000))))
       (dogpark None None) [] (1 # 2)).1
  = Some (TransactionSamplingMethod.Rate, Some (1121 # 10000)%Q).
Proof. reflexivity. Qed.

Example test_reject_rates_which_are_not_numbers :
  (Tracing.startTransaction (with_rate (JStr "dogs!")) (dogpark None None) [] (1 # 2)).2
  = ["Sample rate must be a boolean or a number"].
Proof. reflexivity. Qed.

Example test_reject_sampler_values_which_are_NaN :
  (Tracing.startTransaction (with_sampler (JNum NaN)) (dogpark None None) [] (1 # 2)).2
  = ["Sample rate must be a boolean or a number"].
Proof. reflexivity. Qed.

Example test_reject_rates_greater_than_1 :
  (Tracing.startTransaction (with_rate (JNum (Finite 26))) (dogpark None None) [] (1 # 2)).2
  = ["Sample rate must be between 0 and 1"].
Proof. reflexivity. Qed.

Example test_reject_sampler_values_less_than_0 :
  (Tracing.startTransaction (with_sampler (JNum (Finite (-12)))) (dogpark None None) []
     (1 # 2)).2
  = ["Sample rate must be between 0 and 1"].
Proof. reflexivity. Qed.

Example test_inherit_positive_decision :
  Tracing.transaction_sampled
    (Tracing.startTransaction (with_rate (JNum (Finite (1 # 2))))
       (dogpark (Some true) None) [] 1).1
  = true.
Proof. reflexivity. Qed.

Example test_inherit_negative_decision :
  Tracing.transaction_sampled
    (Tracing.startTransaction (with_rate (JNum (Finite 1)))
       (dogpark (Some false) None) [] (1 # 2)).1
  = false.
Proof. reflexivity. Qed.

Example test_sampler_ignores_parent_decision :
  Tracing.transaction_sampled
    (Tracing.startTransaction (with_sampler (JBool true)) (dogpark (Some false) None) []
       (1 # 2)).1 = true
  /\ Tracing.transaction_sampled
       (Tracing.startTransaction (with_sampler (JBool false)) (dogpark (Some true) None) []
          (1 # 2)).1 = false.
Proof. split; reflexivity. Qed.

(** * Further properties of the Node client *)

Lemma marked_dom scope w : dom (heap (marked scope w)) = dom (heap w).
Proof.
  unfold marked. destruct (scope ≫= getRequestSession) as [l|]; [|done].
  case_bool_decide as Hok; [|done].
  unfold set_status; simpl. apply dom_insert_lookup_L.
  unfold status_at in Hok. by destruct (heap w !! l).
Qed.

Lemma marked_heap_ext scope w w' :
  heap w = heap w' -> heap (marked scope w) = heap (marked scope w').
Proof.
  intros Heq. unfold marked, status_at, set_status.
  destruct (scope ≫= getRequestSession) as [l|]; [|done].
  rewrite Heq. by case_bool_decide.
Qed.

Lemma marked_idem scope w : marked scope (marked scope w) = marked scope w.
Proof.
  unfold marked at 2 3.
  destruct (scope ≫= getRequestSession) as [l|] eqn:Hl; [|by unfold marked; rewrite Hl].
  case_bool_decide as Hok.
  - unfold marked. rewrite Hl, status_at_set_status_eq.
    by rewrite bool_decide_eq_false_2.
  - unfold marked. rewrite Hl. by rewrite bool_decide_eq_false_2.
Qed.

(** The world whose request sessions a capture call returns, for a base
    class that leaves them alone. *)
Lemma capture_heap_marked {B : BaseClient} {F : BaseFrame B} c this w :
  heap (capture c this w)
  = heap (if truthy_bool (autoSessionTracking (_options this))
             && bool_decide (is_Some (_sessionFlusher this))
             && match c with
                | CaptureException _ _ _ => true
                | CaptureEvent event _ _ => NodeClient.isException event
                end
          then marked (capture_scope c) w else w).
Proof.
  destruct c as [e h s|e h s]; simpl.
  - rewrite captureException_unfold, super_captureException_heap.
    by rewrite andb_true_r.
  - by rewrite captureEvent_unfold, super_captureEvent_heap.
Qed.

(** X1. The constructor never replaces SDK metadata that the caller
    supplied and always leaves the metadata defined: without it, the SDK is
    named ['sentry.javascript.node'] and carries the npm package at the SDK's
    version.  The other options are taken over untouched, and building a
    client again from the options of a built client changes nothing. *)
Theorem constructor_defaults_sdk_metadata
    (version : string) (backend : NodeBackend) (options : NodeOptions) :
  (forall m info, _metadata options = Some m -> sdk m = Some info ->
     _metadata (_options (NodeClient.new version backend options))
     = Some {| sdk := Some info |})
  /\ ((_metadata options = None \/ _metadata options = Some {| sdk := None |}) ->
      _metadata (_options (NodeClient.new version backend options))
      = Some {| sdk := Some {| sdk_name := "sentry.javascript.node";
                               sdk_packages := [("npm:@sentry/node", version)];
                               sdk_version := version |} |})
  /\ (exists info,
        _metadata (_options (NodeClient.new version backend options))
        = Some {| sdk := Some info |})
  /\ dsn (_options (NodeClient.new version backend options)) = dsn options
  /\ autoSessionTracking (_options (NodeClient.new version backend options))
     = autoSessionTracking options
  /\ release (_options (NodeClient.new version backend options)) = release options
  /\ environment (_options (NodeClient.new version backend options)) = environment options
  /\ (forall version',
        NodeClient.new version' backend (_options (NodeClient.new version backend options))
        = NodeClient.new version backend options).
Proof.
  unfold NodeClient.new; simpl. repeat split.
  - intros m info Hm Hsdk. by rewrite Hm; simpl; rewrite Hsdk.
  - intros [Hm|Hm]; by rewrite Hm.
  - by eexists.
Qed.

(** X2. [_prepareEvent] hands to the base class an event whose platform is
    always set and not empty: the event's own platform when it has one,
    ['node'] otherwise.  A non-empty [serverName] option replaces the event's
    server name and an absent or empty one leaves it alone; the other fields
    of the event are not touched; and preparing the prepared event again
    hands over the same event. *)
Theorem prepareEvent_sets_platform_and_server_name {P : BasePrepare}
    (serverName : option string) (event : NodeEvent) (scope : option Scope)
    (hint : option EventHint) (this : NodeClient) (w : World) :
  exists event',
    _prepareEvent serverName event scope hint this w
      = super_prepareEvent event' scope hint this w
    /\ truthy_string (platform event') = true
    /\ (truthy_string (platform event) = true -> platform event' = platform event)
    /\ (truthy_string (platform event) = false -> platform event' = Some "node")
    /\ (truthy_string serverName = true -> server_name event' = serverName)
    /\ (truthy_string serverName = false -> server_name event' = server_name event)
    /\ node_event event' = node_event event
    /\ _prepareEvent serverName event' scope hint this w
       = super_prepareEvent event' scope hint this w.
Proof.
  unfold _prepareEvent.
  set (p' := match platform event with
             | Some p => if bool_decide (p = "") then "node" else p
             | None => "node"
             end).
  assert (Hne : p' <> "").
  { unfold p'. destruct (platform event) as [p|]; [|done]. by case_bool_decide. }
  assert (Hkeep : truthy_string (platform event) = true -> Some p' = platform event).
  { unfold p', truthy_string. destruct (platform event) as [p|]; [|done].
    by case_bool_decide. }
  assert (Hnode : truthy_string (platform event) = false -> Some p' = Some "node").
  { unfold p', truthy_string. destruct (platform event) as [p|]; [|done].
    by case_bool_decide. }
  assert (Hagain : (if bool_decide (p' = "") then "node" else p') = p').
  { by rewrite bool_decide_eq_false_2. }
  destruct (truthy_string serverName) eqn:Hs; eexists; (split; [reflexivity|]); simpl;
    rewrite Hagain;
    (split; [by rewrite bool_decide_eq_false_2|]);
    repeat split; done.
Qed.

(** X3. Whatever the client, the scope and the event, [captureEvent] logs
    nothing of its own and neither creates nor removes a request session
    before it delegates; a session is handed over changed only if the client
    is tracking, the scope carries that session, the event counts as an
    exception and the session was [Ok], and then it is [Errored]. *)
Theorem captureEvent_changes_only_the_carried_session {B : BaseClient}
    (event : Event) (hint : option EventHint) (scope : option Scope)
    (this : NodeClient) (w : World) :
  exists w1,
    NodeClient.captureEvent event hint scope this w
      = super_captureEvent event hint scope this w1
    /\ calls w1 = calls w
    /\ dom (heap w1) = dom (heap w)
    /\ forall l,
         heap w1 !! l = heap w !! l
         \/ (tracking this /\ carries scope l /\ exception_with_values event
             /\ status_at w l = Some RequestSessionStatus.Ok
             /\ status_at w1 l = Some RequestSessionStatus.Errored).
Proof.
  rewrite captureEvent_unfold.
  destruct (truthy_bool _ && bool_decide _ && NodeClient.isException event) eqn:Hc.
  - apply andb_true_iff in Hc as [Ht Hex]. apply isException_spec in Hex.
    assert (Htr : tracking this).
    { destruct (tracking_dec this) as [Htr|Hn]; [done|].
      apply andb_true_iff in Ht as [Ha Hf]. apply bool_decide_eq_true in Hf.
      destruct Hn as [Hn|Hn]; [congruence|]. rewrite Hn in Hf. by destruct Hf. }
    exists (marked scope w). split; [done|]. split; [apply marked_calls|].
    split; [apply marked_dom|]. intros l.
    destruct (marked_heap scope w l) as [Heq|(Hcar & Hok & Herr)]; [by left|].
    right. done.
  - exists w. repeat split; try done. intros l. by left.
Qed.

(** X4. For an event that counts as an exception, [captureEvent] hands to
    the base class exactly the world that [captureException] hands over on
    the same client, scope and world: the two methods make the same
    transition. *)
Theorem captureEvent_agrees_with_captureException {B : BaseClient}
    (event : Event) (exception : JSValue) (hint hint' : option EventHint)
    (scope : option Scope) (this : NodeClient) (w : World) :
  exception_with_values event ->
  exists w1,
    NodeClient.captureEvent event hint scope this w
      = super_captureEvent event hint scope this w1
    /\ NodeClient.captureException exception hint' scope this w
       = super_captureException exception hint' scope this w1.
Proof.
  intros Hex. apply isException_spec in Hex.
  rewrite captureEvent_unfold, captureException_unfold, Hex, andb_true_r.
  by eexists.
Qed.

Lemma captureEvent_agrees_with_captureException_witness :
  exists w1,
    NodeClient.captureEvent (B := plain_base) event_exception None (Some scope0)
        client_tracking (world_with RequestSessionStatus.Ok)
      = super_captureEvent (BaseClient := plain_base) event_exception None (Some scope0)
          client_tracking w1
    /\ NodeClient.captureException (B := plain_base) (JStr "test exception") None
         (Some scope0) client_tracking (world_with RequestSessionStatus.Ok)
       = super_captureException (BaseClient := plain_base) (JStr "test exception") None
           (Some scope0) client_tracking w1.
Proof.
  apply (captureEvent_agrees_with_captureException (B := plain_base)).
  split; [reflexivity|]. eexists _, _. repeat split. discriminate.
Defined.

(** X5. An event whose [type] is a non-empty string other than
    ['exception'] never marks a session: whatever the client, the scope, the
    exception values it carries and the world, [captureEvent] delegates with
    the world untouched. *)
Theorem captureEvent_ignores_other_types {B : BaseClient}
    (event : Event) (hint : option EventHint) (scope : option Scope)
    (this : NodeClient) (w : World) (t : string) :
  type event = Some t ->
  t <> "" ->
  t <> "exception" ->
  NodeClient.captureEvent event hint scope this w
  = super_captureEvent event hint scope this w.
Proof.
  intros Ht Hne Hnx. rewrite captureEvent_unfold.
  assert (Hex : NodeClient.isException event = false).
  { unfold NodeClient.isException, NodeClient.eventType. rewrite Ht.
    rewrite (bool_decide_eq_false_2 (t = "")) by done.
    by rewrite bool_decide_eq_false_2. }
  by rewrite Hex, andb_false_r.
Qed.

Lemma captureEvent_ignores_other_types_witness :
  NodeClient.captureEvent (B := plain_base)
    {| message := None; type := Some "transaction"; exception := exception event_exception |}
    None (Some scope0) client_tracking (world_with RequestSessionStatus.Ok)
  = super_captureEvent (BaseClient := plain_base)
      {| message := None; type := Some "transaction"; exception := exception event_exception |}
      None (Some scope0) client_tracking (world_with RequestSessionStatus.Ok).
Proof.
  apply (captureEvent_ignores_other_types (B := plain_base) _ _ _ _ _ "transaction");
    [reflexivity | discriminate | discriminate].
Defined.

Lemma captures_status {B : BaseClient} {F : BaseFrame B} cs this w l :
  status_at (captures cs this w) l = status_at w l
  \/ (status_at w l = Some RequestSessionStatus.Ok
      /\ status_at (captures cs this w) l = Some RequestSessionStatus.Errored).
Proof.
  induction cs as [|c cs IH] using rev_ind; [by left|].
  rewrite captures_snoc.
  destruct (capture_status c this (captures cs this w) l) as [Heq|[Hok Herr]].
  - rewrite Heq. exact IH.
  - destruct IH as [IH|[_ IH]]; [|congruence].
    right. split; [by rewrite <- IH|done].
Qed.

(** X6. Over any sequence of capture calls, with a base class that leaves
    request sessions alone, the status of a request session at the end is
    the one it had at the start, unless it was [Ok] and is now [Errored]; in
    particular no session is created or lost, and [Errored] is never undone. *)
Theorem captures_only_error_ok_sessions {B : BaseClient} (F : BaseFrame B)
    (cs : list Capture) (this : NodeClient) (w : World) (l : loc) :
  (status_at (captures cs this w) l = status_at w l
   \/ (status_at w l = Some RequestSessionStatus.Ok
       /\ status_at (captures cs this w) l = Some RequestSessionStatus.Errored))
  /\ (status_at w l = None -> status_at (captures cs this w) l = None)
  /\ (forall cs',
        status_at (captures cs this w) l = Some RequestSessionStatus.Errored ->
        status_at (captures (cs ++ cs') this w) l = Some RequestSessionStatus.Errored).
Proof.
  split; [apply captures_status|]. split.
  - intros Hn. destruct (captures_status cs this w l) as [Heq|[Hok _]]; congruence.
  - intros cs' Herr. unfold captures. rewrite foldl_app.
    by apply (captures_keep_status cs' this _ l RequestSessionStatus.Errored).
Qed.

Lemma captures_only_error_ok_sessions_witness :
  (status_at
     (captures (B := plain_base)
        [CaptureEvent event_message None (Some scope0);
         CaptureException (JStr "test exception") None (Some scope0)]
        client_tracking (world_with RequestSessionStatus.Ok)) 0
   = status_at (world_with RequestSessionStatus.Ok) 0
   \/ (status_at (world_with RequestSessionStatus.Ok) 0 = Some RequestSessionStatus.Ok
       /\ status_at
            (captures (B := plain_base)
               [CaptureEvent event_message None (Some scope0);
                CaptureException (JStr "test exception") None (Some scope0)]
               client_tracking (world_with RequestSessionStatus.Ok)) 0
          = Some RequestSessionStatus.Errored)).
Proof.
  apply (proj1 (captures_only_error_ok_sessions plain_base_frame
                  [CaptureEvent event_message None (Some scope0);
                   CaptureException (JStr "test exception") None (Some scope0)]
                  client_tracking (world_with RequestSessionStatus.Ok) 0)).
Defined.

Lemma capture_marks_iff {B : BaseClient} {F : BaseFrame B} c this w l :
  tracking this ->
  status_at w l = Some RequestSessionStatus.Ok ->
  status_at (capture c this w) l = Some RequestSessionStatus.Errored <-> triggers c l.
Proof.
  intros Ht Hok.
  assert (Hst : status_at (capture c this w) l
                = status_at (if match c with
                                | CaptureException _ _ _ => true
                                | CaptureEvent event _ _ => NodeClient.isException event
                                end
                             then marked (capture_scope c) w else w) l).
  { unfold status_at. rewrite capture_heap_marked, (tracking_true _ Ht). done. }
  rewrite Hst. clear Hst.
  assert (Hm : forall scope,
            status_at (marked scope w) l = Some RequestSessionStatus.Errored
            <-> carries scope l).
  { intros scope. split.
    - intros Herr. destruct (marked_heap scope w l) as [Heq|(Hc & _)]; [|done].
      unfold status_at in Herr, Hok. rewrite Heq, Hok in Herr. done.
    - intros Hc. rewrite (marked_carried _ _ _ Hc Hok). apply status_at_set_status_eq. }
  destruct c as [e h s|e h s]; simpl.
  - apply Hm.
  - destruct (NodeClient.isException e) eqn:Hex.
    + apply isException_spec in Hex. rewrite Hm. tauto.
    + split.
      * intros Herr. rewrite Hok in Herr. done.
      * intros [_ Hx]. apply isException_spec in Hx. congruence.
Qed.

Lemma captures_marks_iff {B : BaseClient} {F : BaseFrame B} cs this w l :
  tracking this ->
  status_at w l = Some RequestSessionStatus.Ok ->
  status_at (captures cs this w) l = Some RequestSessionStatus.Errored
  <-> Exists (fun c => triggers c l) cs.
Proof.
  intros Ht Hok. induction cs as [|c cs IH] using rev_ind.
  - simpl. rewrite Hok. split; [done|]. intros Hex. by apply Exists_nil in Hex.
  - rewrite captures_snoc, Exists_app, Exists_cons, Exists_nil.
    destruct (captures_status cs this w l) as [Heq|[_ Herr]].
    + rewrite Hok in Heq.
      rewrite (capture_marks_iff c this _ l Ht Heq).
      split; [tauto|]. intros [Hex|[Hc|[]]]; [|done].
      apply IH in Hex. congruence.
    + split; [intros _; left; by apply IH|]. intros _.
      apply (captures_keep_status [c] this _ l RequestSessionStatus.Errored Herr).
      done.
Qed.

Lemma captures_stay_ok {B : BaseClient} {F : BaseFrame B} cs this w l :
  tracking this ->
  status_at w l = Some RequestSessionStatus.Ok ->
  ~ Exists (fun c => triggers c l) cs ->
  status_at (captures cs this w) l = Some RequestSessionStatus.Ok.
Proof.
  intros Ht Hok Hno.
  destruct (captures_status cs this w l) as [Heq|[_ Herr]]; [congruence|].
  apply (captures_marks_iff cs this w l Ht Hok) in Herr. done.
Qed.

(** X7. On a tracking client whose base class leaves request sessions
    alone, a request session that is [Ok] ends a sequence of capture calls
    [Errored] exactly when the sequence contains a [captureException] on a
    scope carrying that session, or a [captureEvent] of an event counting as
    an exception on such a scope; otherwise it is still [Ok]. *)
Theorem captures_error_iff_triggered {B : BaseClient} (F : BaseFrame B)
    (cs : list Capture) (this : NodeClient) (w : World) (l : loc) :
  tracking this ->
  status_at w l = Some RequestSessionStatus.Ok ->
  (status_at (captures cs this w) l = Some RequestSessionStatus.Errored
   <-> Exists (fun c => triggers c l) cs)
  /\ (~ Exists (fun c => triggers c l) cs ->
      status_at (captures cs this w) l = Some RequestSessionStatus.Ok).
Proof.
  intros Ht Hok. split.
  - by apply captures_marks_iff.
  - by apply captures_stay_ok.
Qed.

Lemma captures_error_iff_triggered_witness :
  (status_at
     (captures (B := plain_base)
        [CaptureEvent event_transaction None (Some scope0);
         CaptureEvent event_exception None (Some scope0)]
        client_tracking (world_with RequestSessionStatus.Ok)) 0
   = Some RequestSessionStatus.Errored
   <-> Exists (fun c => triggers c 0)
         [CaptureEvent event_transaction None (Some scope0);
          CaptureEvent event_exception None (Some scope0)])
  /\ (~ Exists (fun c => triggers c 0)
          [CaptureEvent event_transaction None (Some scope0);
           CaptureEvent event_exception None (Some scope0)] ->
      status_at
        (captures (B := plain_base)
           [CaptureEvent event_transaction None (Some scope0);
            CaptureEvent event_exception None (Some scope0)]
           client_tracking (world_with RequestSessionStatus.Ok)) 0
      = Some RequestSessionStatus.Ok).
Proof.
  apply (captures_error_iff_triggered plain_base_frame).
  - split; [reflexivity|]. eexists. reflexivity.
  - reflexivity.
Defined.

(** X8. Capturing is idempotent on request sessions: with a base class that
    leaves them alone, making the same capture call a second time changes no
    request session. *)
Theorem capture_twice_is_capture_once {B : BaseClient} (F : BaseFrame B)
    (c : Capture) (this : NodeClient) (w : World) :
  heap (capture c this (capture c this w)) = heap (capture c this w).
Proof.
  rewrite (capture_heap_marked c this (capture c this w)).
  destruct (_ && _ && _) eqn:Hc; [|done].
  rewrite (marked_heap_ext _ _ (marked (capture_scope c) w)).
  - by rewrite marked_idem, capture_heap_marked, Hc.
  - by rewrite capture_heap_marked, Hc.
Qed.

Lemma capture_twice_is_capture_once_witness :
  heap (capture (B := plain_base)
          (CaptureException (JStr "test exception") None (Some scope0)) client_tracking
          (capture (B := plain_base)
             (CaptureException (JStr "test exception") None (Some scope0)) client_tracking
             (world_with RequestSessionStatus.Ok)))
  = heap (capture (B := plain_base)
            (CaptureException (JStr "test exception") None (Some scope0)) client_tracking
            (world_with RequestSessionStatus.Ok)).
Proof.
  apply (capture_twice_is_capture_once plain_base_frame).
Defined.

(** X9. [close] never takes the session flusher off the client: a client
    has a flusher after [close] exactly when it had one before, and on a
    client without a flusher [close] only delegates to the base class,
    taking over the options and the backend the base class returns.  Hence,
    if the base class's [close] leaves [autoSessionTracking] as it was, the
    client is tracking after [close] exactly when it was before, and a
    capture call made after [close] hands to the base class the same world
    as it would have before. *)
Theorem close_keeps_the_client_tracking {B : BaseClient}
    (timeout : option Z) (this : NodeClient) (w : World) :
  (is_Some (_sessionFlusher (NodeClient.close timeout this w).1.2)
   <-> is_Some (_sessionFlusher this))
  /\ (_sessionFlusher this = None ->
      NodeClient.close timeout this w
      = ((super_close timeout this w).1.1.1,
         {| _options := (super_close timeout this w).1.1.2;
            _backend := (super_close timeout this w).1.2;
            _sessionFlusher := None |},
         (super_close timeout this w).2))
  /\ (autoSessionTracking (_options (NodeClient.close timeout this w).1.2)
      = autoSessionTracking (_options this) ->
      (tracking (NodeClient.close timeout this w).1.2 <-> tracking this)
      /\ forall exception hint scope w', exists w1,
           NodeClient.captureException exception hint scope this w'
             = super_captureException exception hint scope this w1
           /\ NodeClient.captureException exception hint scope
                (NodeClient.close timeout this w).1.2 w'
              = super_captureException exception hint scope
                  (NodeClient.close timeout this w).1.2 w1).
Proof.
  assert (Hf : is_Some (_sessionFlusher (NodeClient.close timeout this w).1.2)
               <-> is_Some (_sessionFlusher this)).
  { rewrite close_flusher. by rewrite fmap_is_Some. }
  split; [exact Hf|]. split.
  - intros Hn. rewrite close_unfold, Hn. reflexivity.
  - intros Ha. split.
    + unfold tracking. by rewrite Ha, Hf.
    + intros e h s w'. rewrite !captureException_unfold, Ha.
      rewrite (bool_decide_ext _ _ Hf). by eexists.
Qed.

Lemma step_no_flusher_created {B : BaseClient} o st :
  o <> OpInitSessionFlusher ->
  _sessionFlusher st.1 = None ->
  _sessionFlusher (step o st).1 = None.
Proof.
  intros Hno Hf. destruct st as [this w], o as [c|t| |]; try done.
  - rewrite step_close_client, close_flusher. simpl in Hf. by rewrite Hf.
  - simpl in *. unfold NodeClient._captureRequestSession. by rewrite Hf.
Qed.

(** X10. Only [initSessionFlusher] gives a client its session flusher: a
    client built by the constructor, whatever its options, has none after
    any sequence of [captureException], [captureEvent], [close] and
    [_captureRequestSession] calls, and is therefore not tracking. *)
Theorem no_flusher_without_initSessionFlusher {B : BaseClient}
    (os : list Op) (version : string) (backend : NodeBackend)
    (options : NodeOptions) (w : World) :
  OpInitSessionFlusher ∉ os ->
  _sessionFlusher (run os (NodeClient.new version backend options, w)).1 = None
  /\ ~ tracking (run os (NodeClient.new version backend options, w)).1.
Proof.
  intros Hno.
  assert (Hf : _sessionFlusher (run os (NodeClient.new version backend options, w)).1
               = None).
  { induction os as [|o os IH] using rev_ind; [done|].
    apply not_elem_of_app in Hno as [Hos Ho].
    rewrite run_snoc. apply step_no_flusher_created; [|by apply IH].
    intros ->. apply Ho. by apply list_elem_of_singleton. }
  split; [exact Hf|]. intros [_ Hs]. rewrite Hf in Hs. by destruct Hs.
Qed.

Lemma no_flusher_without_initSessionFlusher_witness :
  _sessionFlusher
    (run (B := plain_base)
       [OpCapture (CaptureException (JStr "test exception") None (Some scope0));
        OpCaptureRequestSession; OpClose (Some 1%Z)]
       (NodeClient.new "6.13.3" backend0 options_tracking,
        world_with RequestSessionStatus.Ok)).1 = None
  /\ ~ tracking
         (run (B := plain_base)
            [OpCapture (CaptureException (JStr "test exception") None (Some scope0));
             OpCaptureRequestSession; OpClose (Some 1%Z)]
            (NodeClient.new "6.13.3" backend0 options_tracking,
             world_with RequestSessionStatus.Ok)).1.
Proof.
  apply (no_flusher_without_initSessionFlusher (B := plain_base)).
  intros Hin.
  repeat (apply elem_of_cons in Hin as [Hin|Hin]; [discriminate|]).
  by apply elem_of_nil in Hin.
Defined.

Lemma step_bound {B : BaseClient} o st :
  (forall f, _sessionFlusher st.1 = Some f ->
     release (_options st.1) = Some (flusher_release f)
     /\ flusher_release f <> ""
     /\ flusher_transport f = getTransport (_backend st.1)
     /\ flusher_environment f = environment (_options st.1)) ->
  forall f, _sessionFlusher (step o st).1 = Some f ->
    release (_options st.1) = Some (flusher_release f)
    /\ flusher_release f <> ""
    /\ flusher_transport f = getTransport (_backend st.1)
    /\ flusher_environment f = environment (_options st.1).
Proof.
  intros Hb f. destruct st as [this w], o as [c|t| |].
  - apply Hb.
  - rewrite step_close_client, close_flusher. simpl in *.
    destruct (_sessionFlusher this) as [f0|] eqn:Hf0; [|done].
    simpl. intros [= <-]. simpl. by apply Hb.
  - simpl in *. unfold NodeClient.initSessionFlusher.
    destruct (release (_options this)) as [r|] eqn:Hr; [|apply Hb].
    case_bool_decide as Hne; [apply Hb|].
    simpl. intros [= <-]. done.
  - simpl in *. unfold NodeClient._captureRequestSession.
    destruct (_sessionFlusher this) as [f0|] eqn:Hf0; [|simpl; by rewrite Hf0].
    unfold SessionFlusher_incrementSessionStatusCount.
    destruct (_isEnabled f0); simpl; intros [= <-]; by apply Hb.
Qed.

(** X11. After any sequence of method calls on a client built by the
    constructor, a session flusher, when the client has one, is bound to the
    transport of the client's backend and to the release and environment of
    its options, and that release is not empty. *)
Theorem session_flusher_is_bound_to_the_client {B : BaseClient}
    (os : list Op) (version : string) (backend : NodeBackend)
    (options : NodeOptions) (w : World) (f : SessionFlusher) :
  _sessionFlusher (run os (NodeClient.new version backend options, w)).1 = Some f ->
  release options = Some (flusher_release f)
  /\ flusher_release f <> ""
  /\ flusher_transport f = getTransport backend
  /\ flusher_environment f = environment options.
Proof.
  revert f.
  assert (Hinv :
    (release (_options (run os (NodeClient.new version backend options, w)).1)
       = release options
     /\ environment (_options (run os (NodeClient.new version backend options, w)).1)
        = environment options
     /\ getTransport (_backend (run os (NodeClient.new version backend options, w)).1)
        = getTransport backend)
    /\ forall f,
         _sessionFlusher (run os (NodeClient.new version backend options, w)).1 = Some f ->
         release options = Some (flusher_release f)
         /\ flusher_release f <> ""
         /\ flusher_transport f = getTransport backend
         /\ flusher_environment f = environment options).
  { induction os as [|o os [(IHr & IHe & IHt) IHf]] using rev_ind; [done|].
    rewrite run_snoc.
    destruct (step_identity o (run os (NodeClient.new version backend options, w)))
      as (Hr & He & Ht).
    split; [rewrite Hr, He, Ht; done|].
    intros f Hf. apply step_bound in Hf.
    - rewrite IHr, IHe, IHt in Hf. exact Hf.
    - rewrite IHr, IHe, IHt. exact IHf. }
  apply Hinv.
Qed.

Lemma session_flusher_is_bound_to_the_client_witness :
  release options_tracking = Some "1.4"
  /\ "1.4" <> ""
  /\ TransportRef 0 = getTransport backend0
  /\ None = environment options_tracking.
Proof.
  apply (session_flusher_is_bound_to_the_client (B := plain_base)
           [OpInitSessionFlusher; OpClose None] "6.13.3" backend0 options_tracking
           empty_world
           {| flusher_transport := TransportRef 0;
              flusher_release := "1.4";
              flusher_environment := None;
              _isEnabled := false;
              _intervalRunning := false |}).
  reflexivity.
Defined.

Lemma captures_not_tracking {B : BaseClient} {F : BaseFrame B} cs this w :
  ~ tracking this -> heap (captures cs this w) = heap w.
Proof.
  intros Hn. induction cs as [|c cs IH] using rev_ind; [done|].
  rewrite captures_snoc, capture_heap_marked, (tracking_false _ Hn). exact IH.
Qed.

(** X12. With a base class that leaves request sessions alone, the status
    in which a sequence of capture calls leaves a request session does not
    depend on the order of the calls. *)
Theorem captures_order_is_irrelevant {B : BaseClient} (F : BaseFrame B)
    (cs cs' : list Capture) (this : NodeClient) (w : World) (l : loc) :
  cs ≡ₚ cs' ->
  status_at (captures cs this w) l = status_at (captures cs' this w) l.
Proof.
  intros Hp.
  destruct (tracking_dec this) as [Ht|Hn].
  - destruct (status_at w l) as [s|] eqn:Hs.
    + destruct (decide (s = RequestSessionStatus.Ok)) as [->|Hne].
      * assert (Hex : Exists (fun c => triggers c l) cs
                      <-> Exists (fun c => triggers c l) cs').
        { rewrite !Exists_exists. by setoid_rewrite Hp. }
        pose proof (captures_marks_iff cs this w l Ht Hs) as Hiff.
        pose proof (captures_marks_iff cs' this w l Ht Hs) as Hiff'.
        destruct (captures_status cs this w l) as [Heq|[_ Herr]].
        -- rewrite Hs in Heq. rewrite Heq. symmetry.
           apply (captures_stay_ok cs' this w l Ht Hs).
           intros Hx. apply Hex, Hiff in Hx. congruence.
        -- rewrite Herr. symmetry. by apply Hiff', Hex, Hiff.
      * rewrite (captures_keep_status cs this w l s Hs Hne).
        by rewrite (captures_keep_status cs' this w l s Hs Hne).
    + destruct (captures_status cs this w l) as [Heq|[Hok _]]; [|congruence].
      destruct (captures_status cs' this w l) as [Heq'|[Hok _]]; congruence.
  - assert (Hf : ~ tracking this).
    { intros [Ha [f Hf]]. destruct Hn as [Hn|Hn]; [by rewrite Ha in Hn|congruence]. }
    unfold status_at. by rewrite !captures_not_tracking.
Qed.

Lemma captures_order_is_irrelevant_witness :
  status_at
    (captures (B := plain_base)
       [CaptureEvent event_transaction None (Some scope0);
        CaptureException (JStr "test exception") None (Some scope0)]
       client_tracking (world_with RequestSessionStatus.Ok)) 0
  = status_at
      (captures (B := plain_base)
         [CaptureException (JStr "test exception") None (Some scope0);
          CaptureEvent event_transaction None (Some scope0)]
         client_tracking (world_with RequestSessionStatus.Ok)) 0.
Proof.
  apply (captures_order_is_irrelevant plain_base_frame).
  apply perm_swap.
Defined.
